(** * opencode-wrapper: layered configuration and process invocation

    A shallow embedding of [opencode_wrapper/config.py],
    [opencode_wrapper/wrapper.py] and the [run] command of
    [opencode_wrapper/cli.py], with the properties of the configuration
    resolver and of the process invoker proved over it.

    Python exceptions are values of [exn] and a call that may raise returns a
    [result].  The process environment is a [gmap string string], the file
    system a finite map from paths to nodes.  Services of the host that the
    code only calls (the YAML codec, the locale's decoder, the per-user
    configuration directory, the home-directory lookup, [int()], the
    operating system's refusals, the child program) are the fields of the
    class [Host]: every theorem holds for any host. *)

From Stdlib Require Import ZArith QArith Ascii String List Bool.
From stdpp Require Import gmap strings list fin_maps pretty.

Set Warnings "-register-all".
Local Open Scope string_scope.
Local Open Scope Z_scope.

(** ** Values read from configuration files *)

(** A Python [float]: a finite double is a rational. *)
Inductive pyfloat :=
| FFinite (q : Q)
| FInf (negative : bool)
| FNan.

(** A key of a mapping that is no string: one of the other scalars. *)
Inductive key :=
| KNone
| KBool (b : bool)
| KInt (n : Z)
| KFloat (f : pyfloat).

(** What [yaml.safe_load] hands back: the scalars, sequences and mappings of
    a configuration file.  [VDict d] is a mapping all of whose keys are
    strings; [VMapping d others] is a mapping that, beside the items [d]
    under string keys, has the items [others] under keys that are no
    strings. *)
Inductive value :=
| VNone
| VBool (b : bool)
| VInt (n : Z)
| VFloat (f : pyfloat)
| VStr (s : string)
| VList (l : list value)
| VDict (d : gmap string value)
| VMapping (d : gmap string value) (others : list (key * value)).

Abbreviation dict := (gmap string value).

(** A Python [dict] as [_read_yaml] returns it: its items under string keys,
    which are all that are ever looked up, and its items under other keys. *)
Record pydict := PyDict {
  str_items :> gmap string value;
  other_items : list (key * value)
}.

Global Instance pydict_empty : Empty pydict := PyDict ∅ [].

Definition is_empty_dict (d : dict) : bool :=
  match map_to_list d with [] => true | _ :: _ => false end.

Definition float_truthy (f : pyfloat) : bool :=
  match f with
  | FFinite q => negb (Z.eqb (Qnum q) 0)
  | FInf _ | FNan => true
  end.

(** Python truth value, as tested by [x or y], [if x:] and [bool(x)]. *)
Definition truthy (v : value) : bool :=
  match v with
  | VNone => false
  | VBool b => b
  | VInt n => negb (Z.eqb n 0)
  | VFloat f => float_truthy f
  | VStr s => negb (String.eqb s "")
  | VList l => match l with [] => false | _ :: _ => true end
  | VDict d => negb (is_empty_dict d)
  | VMapping d others =>
      negb (is_empty_dict d) || match others with [] => false | _ :: _ => true end
  end.

(** [isinstance(v, dict)] *)
Definition is_mapping (v : value) : bool :=
  match v with
  | VDict _ | VMapping _ _ => true
  | _ => false
  end.

(** [bool(d)] for a [dict] *)
Definition dict_truthy (d : pydict) : bool :=
  negb (is_empty_dict (str_items d))
  || match other_items d with [] => false | _ :: _ => true end.

Definition str_truthy (s : string) : bool := negb (String.eqb s "").

(** [d1 | d2] in the order of [{**d1, **d2}]: keys of [d2] win. *)
Definition dict_update (d1 d2 : dict) : dict := d2 ∪ d1.

(** ** Exceptions and results *)

Inductive oserror :=
| FileNotFoundError
| FileExistsError
| NotADirectoryError
| IsADirectoryError
| PermissionError
| OtherOSError (errno : Z).

Inductive exn :=
| ConfigError (msg : string)         (* class ConfigError(RuntimeError) *)
| RuntimeError (msg : string)        (* a RuntimeError that is no ConfigError *)
| ValidationError (loc : list string) (* pydantic's, a ValueError; the fields at fault *)
| TypeError
| OSError (e : oserror)
| UnicodeDecodeError                 (* bytes that are no text in the locale's encoding *)
| ValueError.                        (* a ValueError of the standard library *)

(** [isinstance(e, ConfigError)], the test of [except ConfigError]. *)
Definition is_ConfigError (e : exn) : bool :=
  match e with ConfigError _ => true | _ => false end.

Inductive result (A : Type) :=
| Ok (a : A)
| Raise (e : exn).
Arguments Ok {A} a.
Arguments Raise {A} e.

Global Instance result_ret : MRet result := fun A a => Ok a.

Global Instance result_bind : MBind result := fun A B k r =>
  match r with
  | Ok a => k a
  | Raise e => Raise e
  end.

Global Instance result_fmap : FMap result := fun A B f r =>
  match r with
  | Ok a => Ok (f a)
  | Raise e => Raise e
  end.

Definition raises {A} (r : result A) : Prop := ∃ e, r = Raise e.

(** The text [needle] occurs in [msg]. *)
Definition mentions (msg needle : string) : Prop :=
  ∃ before after, msg = before ++ needle ++ after.

(** ** Paths (pathlib, POSIX flavour) *)

(** A parsed path: the root is [""], ["/"] or ["//"]; [parts] are the
    components after it. *)
Record Path := mkPath { root : string; parts : list string }.

Global Instance Path_eq_dec : EqDecision Path.
Proof. solve_decision. Defined.

Global Instance Path_countable : Countable Path.
Proof.
  refine (inj_countable' (fun p => (root p, parts p))
            (fun t => mkPath t.1 t.2) _).
  by intros [].
Defined.

(** [s.split(sep)] *)
Fixpoint split_on (sep : ascii) (s : string) : list string :=
  match s with
  | EmptyString => [""]
  | String c rest =>
      if Ascii.eqb c sep then "" :: split_on sep rest
      else match split_on sep rest with
           | [] => [String c ""]
           | w :: ws => String c w :: ws
           end
  end.

(** [posixpath.splitroot] without the (empty) drive: one leading slash or
    three and more give the root ["/"], exactly two give ["//"]. *)
Definition splitroot (p : string) : string * string :=
  match p with
  | String "/" (String "/" (String "/" rest)) => ("/", String "/" (String "/" rest))
  | String "/" (String "/" rest) => ("//", rest)
  | String "/" rest => ("/", rest)
  | _ => ("", p)
  end.

Definition is_part (x : string) : bool :=
  negb (String.eqb x "") && negb (String.eqb x ".").

(** [Path(s)] *)
Definition Path_of_str (s : string) : Path :=
  let '(r, rel) := splitroot s in
  mkPath r (List.filter is_part (split_on "/" rel)).

Fixpoint join_parts (l : list string) : string :=
  match l with
  | [] => ""
  | [x] => x
  | x :: rest => x ++ "/" ++ join_parts rest
  end.

(** [str(p)] *)
Definition str_of_Path (p : Path) : string :=
  match root p, parts p with
  | "", [] => "."
  | r, l => r ++ join_parts l
  end.

(** [p / s] for a string [s]: an absolute [s] replaces [p]. *)
Definition joinpath (p : Path) (s : string) : Path :=
  let q := Path_of_str s in
  match root q with
  | "" => mkPath (root p) (parts p ++ parts q)
  | _ => q
  end.

(** [p.parent]: a path without components is its own parent. *)
Definition parent (p : Path) : Path :=
  mkPath (root p) (removelast (parts p)).

Definition starts_with_tilde (s : string) : bool :=
  match s with
  | String "~" _ => true
  | _ => false
  end.

(** ** File system *)

(** A regular file holding text; a directory; a regular file whose bytes are
    no text in the locale's encoding; a regular file the process has no
    access to.  Links are not modelled: a path names its node. *)
Inductive node :=
| File (text : string)
| Dir
| Undecodable
| Unreadable.

Abbreviation filesystem := (gmap Path node).

(** A path without components (the root, or the current directory) is a
    directory that is always there. *)
Definition fs_node (fs : filesystem) (p : Path) : option node :=
  match parts p with
  | [] => Some Dir
  | _ :: _ => fs !! p
  end.

(** [p.exists()] *)
Definition path_exists (fs : filesystem) (p : Path) : bool :=
  match fs_node fs p with Some _ => true | None => false end.

(** [p.is_dir()] *)
Definition is_dir (fs : filesystem) (p : Path) : bool :=
  match fs_node fs p with Some Dir => true | _ => false end.

(** [p.read_text()] *)
Definition read_text (fs : filesystem) (p : Path) : result string :=
  match fs_node fs p with
  | Some (File text) => Ok text
  | Some Undecodable => Raise UnicodeDecodeError
  | Some Unreadable => Raise (OSError PermissionError)
  | Some Dir => Raise (OSError IsADirectoryError)
  | None => Raise (OSError FileNotFoundError)
  end.

(** ** The host *)

(** Why the operating system fails to create a directory or to write a file
    although the shape of the tree allows it: missing access rights; any
    other reason to refuse (a read-only medium, a quota) with its error
    number; or, for a file only, a failure after the file has been opened (a
    full medium), which leaves the file holding what was [written] until
    then. *)
Inductive refusal :=
| Denied
| Refused (errno : Z)
| Interrupted (errno : Z) (written : string).

Definition oserror_of (r : refusal) : oserror :=
  match r with
  | Denied => PermissionError
  | Refused errno | Interrupted errno _ => OtherOSError errno
  end.

(** Outcome of starting the child program and waiting for it.  The operating
    system fails to start it; or the command line or the environment is
    rejected before the start (an embedded null character); or the child
    runs to completion: [behaviour captured] is then its exit status and the
    bytes it writes to standard output and to standard error, which may
    depend on whether these streams are pipes ([captured]) or the inherited
    ones. *)
Inductive child_outcome :=
| SpawnFailed (e : oserror)
| SpawnRejected
| Started (behaviour : bool → Z * string * string).

(** What the running process is answered by its host.  A real host computes
    [user_config_path] and [os_path_expanduser] from [HOME],
    [XDG_CONFIG_HOME] and the password database: here they are given, not
    computed from the [environ] and [fs] arguments of the functions below,
    so a statement about two environments or two file systems is about one
    process and the same answers. *)
Class Host := {
  (** [platformdirs.user_config_path(app_name, ensure_exists=False)] *)
  user_config_path : string → Path;
  (** [Path.cwd()] *)
  path_cwd : Path;
  (** [os.path.expanduser] on a first component ["~"] or ["~user"]; the
      component comes back unchanged when no home directory is known *)
  os_path_expanduser : string → string;
  (** [yaml.safe_load]; [None] stands for [yaml.YAMLError] *)
  yaml_safe_load : string → option value;
  (** [yaml.safe_dump(data, sort_keys=False)] on the items in order *)
  yaml_safe_dump : list (string * value) → string;
  (** [int(s)]; [None] stands for [ValueError] *)
  py_int : string → option Z;
  (** pydantic's lax conversion of a string to an integer field *)
  str_as_int : string → option Z;
  (** [bytes.decode] in the locale's encoding; [None] stands for
      [UnicodeDecodeError] *)
  locale_decode : string → option string;
  (** the operating system's failure, if any, to create or to write the
      path in this state of the file system *)
  refuses : filesystem → Path → option refusal;
  (** the program run for a command line, an environment and a working
      directory *)
  child : list string → gmap string string → option Path → child_outcome
}.

(** ** Writing to the file system *)

Section Writing.
Context `{Host}.

(** [open(p, "w")]: the file is created, or emptied, inside an existing
    directory. *)
Definition open_for_writing (fs : filesystem) (p : Path) : result filesystem :=
  match fs_node fs p with
  | Some Dir => Raise (OSError IsADirectoryError)
  | Some Unreadable => Raise (OSError PermissionError)
  | _ =>
      match fs_node fs (parent p) with
      | Some Dir => Ok (<[p := File ""]> fs)
      | Some _ => Raise (OSError NotADirectoryError)
      | None => Raise (OSError FileNotFoundError)
      end
  end.

(** [p.write_text(text)]: the file system left behind and the exception
    raised, if any.  The file is opened for writing and the text written to
    it; a write that fails after the file was opened leaves the file with
    what had been written. *)
Definition write_text (fs : filesystem) (p : Path) (text : string)
  : filesystem * option exn :=
  match refuses fs p with
  | Some Denied => (fs, Some (OSError PermissionError))
  | Some (Refused errno) => (fs, Some (OSError (OtherOSError errno)))
  | Some (Interrupted errno written) =>
      match open_for_writing fs p with
      | Ok opened =>
          (<[p := File written]> opened, Some (OSError (OtherOSError errno)))
      | Raise e => (fs, Some e)
      end
  | None =>
      match open_for_writing fs p with
      | Ok opened => (<[p := File text]> opened, None)
      | Raise e => (fs, Some e)
      end
  end.

(** [os.mkdir(p)] *)
Definition os_mkdir (fs : filesystem) (p : Path) : result filesystem :=
  match refuses fs p with
  | Some r => Raise (OSError (oserror_of r))
  | None =>
      match fs_node fs p with
      | Some _ => Raise (OSError FileExistsError)
      | None =>
          match fs_node fs (parent p) with
          | Some Dir => Ok (<[p := Dir]> fs)
          | Some _ => Raise (OSError NotADirectoryError)
          | None => Raise (OSError FileNotFoundError)
          end
      end
  end.

(** [Path.mkdir(parents=True, exist_ok=True)] on the path with root [r] and
    the components [rev rparts]: try [os.mkdir]; when the parent is missing,
    make the parent first and try again; any other error is forgiven when the
    path is a directory.  The result is the file system left behind and the
    exception raised, if any: parents made before a failure stay. *)
Fixpoint mkdir_parents_rev (fs : filesystem) (r : string) (rparts : list string)
  : filesystem * option exn :=
  let p := mkPath r (rev rparts) in
  match os_mkdir fs p with
  | Ok fs' => (fs', None)
  | Raise (OSError FileNotFoundError) =>
      match rparts with
      | [] => (fs, Some (OSError FileNotFoundError))
      | _ :: rest =>
          match mkdir_parents_rev fs r rest with
          | (fs1, Some e) => (fs1, Some e)
          | (fs1, None) =>
              match os_mkdir fs1 p with
              | Ok fs2 => (fs2, None)
              | Raise (OSError FileNotFoundError) =>
                  (fs1, Some (OSError FileNotFoundError))
              | Raise e => if is_dir fs1 p then (fs1, None) else (fs1, Some e)
              end
          end
      end
  | Raise e => if is_dir fs p then (fs, None) else (fs, Some e)
  end.

Definition mkdir_parents (fs : filesystem) (p : Path) : filesystem * option exn :=
  mkdir_parents_rev fs (root p) (rev (parts p)).

End Writing.

(** ** config.py *)

Section Config.
Context `{Host}.

(** [Path.expanduser]: only a relative path whose first component starts with
    a tilde is touched. *)
Definition expanduser (p : Path) : result Path :=
  match root p, parts p with
  | "", first :: rest =>
      if starts_with_tilde first then
        let homedir := os_path_expanduser first in
        if starts_with_tilde homedir
        then Raise (RuntimeError "Could not determine home directory.")
        else
          let h := Path_of_str homedir in
          Ok (mkPath (root h) (parts h ++ rest))
      else Ok p
  | _, _ => Ok p
  end.

(** [class OpencodeConfig(BaseModel)] *)
Record OpencodeConfig := {
  api_key : option string;
  model : string;
  max_tokens : Z;
  workspace_dir : Path
}.

Definition default_api_key : option string := None.
Definition default_model : string := "gpt-4".
Definition default_max_tokens : Z := 4096.
Definition default_workspace_dir : Path := Path_of_str "~/opencode-workspace".

(** [expand_workspace_dir], the [mode="before"] validator of
    [workspace_dir]: [Path(value)] is a [TypeError] on anything but a string. *)
Definition expand_workspace_dir (v : value) : result Path :=
  match v with
  | VStr s => expanduser (Path_of_str s)
  | _ => Raise TypeError
  end.

(** Validation of the annotation [str | None]. *)
Definition validate_optional_str (v : value) : option (option string) :=
  match v with
  | VNone => Some None
  | VStr s => Some (Some s)
  | _ => None
  end.

(** Validation of the annotation [str]: numbers are not converted. *)
Definition validate_str (v : value) : option string :=
  match v with
  | VStr s => Some s
  | _ => None
  end.

(** A float converts to an integer field when it has no fractional part. *)
Definition float_as_int (f : pyfloat) : option Z :=
  match f with
  | FFinite q =>
      if Z.eqb (Qnum q mod Zpos (Qden q)) 0
      then Some (Qnum q / Zpos (Qden q)) else None
  | FInf _ | FNan => None
  end.

(** Validation of the annotation [int] in lax mode. *)
Definition validate_int (v : value) : option Z :=
  match v with
  | VInt n => Some n
  | VBool b => Some (if b then 1 else 0)
  | VFloat f => float_as_int f
  | VStr s => str_as_int s
  | VNone | VList _ | VDict _ | VMapping _ _ => None
  end.

(** [Field(ge=1, le=32000)] *)
Definition in_max_tokens_range (n : Z) : bool := (1 <=? n) && (n <=? 32000).

Definition validate_max_tokens (v : value) : option Z :=
  match validate_int v with
  | Some n => if in_max_tokens_range n then Some n else None
  | None => None
  end.

(** One field of [model_validate]: a missing key takes the default, which is
    not validated; a value that fails adds the field to the error list. *)
Definition field {A} (d : dict) (name : string) (default : A)
    (validate : value → option A) : A * list string :=
  match d !! name with
  | None => (default, [])
  | Some v =>
      match validate v with
      | Some a => (a, [])
      | None => (default, [name])
      end
  end.

(** [OpencodeConfig.model_validate(d)]: fields in declaration order, keys
    that are no field ignored ([extra="ignore"]).  Failed fields are
    collected into one [ValidationError]; an exception of the [before]
    validator that is no [ValueError] leaves at once. *)
Definition model_validate (d : dict) : result OpencodeConfig :=
  let '(k, e1) := field d "api_key" default_api_key validate_optional_str in
  let '(m, e2) := field d "model" default_model validate_str in
  let '(t, e3) := field d "max_tokens" default_max_tokens validate_max_tokens in
  w ← match d !! "workspace_dir" with
      | None => Ok default_workspace_dir
      | Some v => expand_workspace_dir v
      end;
  match (e1 ++ e2 ++ e3)%list with
  | [] => Ok {| api_key := k; model := m; max_tokens := t; workspace_dir := w |}
  | errors => Raise (ValidationError errors)
  end.

(** [OpencodeConfig()] *)
Definition OpencodeConfig_default : OpencodeConfig :=
  {| api_key := default_api_key; model := default_model;
     max_tokens := default_max_tokens; workspace_dir := default_workspace_dir |}.

Definition dump_optional_str (o : option string) : value :=
  match o with
  | Some s => VStr s
  | None => VNone
  end.

(** [config.model_dump(mode="json")]: the fields in declaration order. *)
Definition model_dump (c : OpencodeConfig) : list (string * value) :=
  [ ("api_key", dump_optional_str (api_key c));
    ("model", VStr (model c));
    ("max_tokens", VInt (max_tokens c));
    ("workspace_dir", VStr (str_of_Path (workspace_dir c))) ].

(** [class ConfigPaths(BaseModel)] *)
Record ConfigPaths := {
  user_config_dir : Path;
  user_config_file : Path;
  project_config_file : Path
}.

(** [class ConfigSource(BaseModel)] *)
Record ConfigSource := {
  path : Path;
  exists_ : bool;
  loaded : bool;
  data : dict
}.

(** [class ConfigLoadResult(BaseModel)] *)
Record ConfigLoadResult := {
  config : OpencodeConfig;
  sources : list ConfigSource
}.

(** [class ConfigManager] *)
Record ConfigManager := {
  app_name : string;
  project_file : string
}.

(** [ConfigManager()] *)
Definition ConfigManager_default : ConfigManager :=
  {| app_name := "opencode-wrapper"; project_file := ".opencode.yaml" |}.

Definition resolve_paths (self : ConfigManager) (cwd : option Path) : ConfigPaths :=
  let root := user_config_path (app_name self) in
  let user_config_dir := root in
  let user_config_file := joinpath user_config_dir "config.yaml" in
  let project_root := match cwd with Some c => c | None => path_cwd end in
  let project_config_file := joinpath project_root (project_file self) in
  {| user_config_dir := user_config_dir;
     user_config_file := user_config_file;
     project_config_file := project_config_file |}.

Definition ENV_API_KEY : string := "OPENENCODE_API_KEY".
Definition ENV_MODEL : string := "OPENENCODE_MODEL".
Definition ENV_MAX_TOKENS : string := "OPENENCODE_MAX_TOKENS".
Definition ENV_WORKSPACE_DIR : string := "OPENENCODE_WORKSPACE_DIR".

(** The four variables that [_read_env] looks at. *)
Definition recognized : list string :=
  [ENV_API_KEY; ENV_MODEL; ENV_MAX_TOKENS; ENV_WORKSPACE_DIR].

(** The key of the merged mapping a variable feeds. *)
Definition key_of (name : string) : string :=
  if String.eqb name ENV_API_KEY then "api_key"
  else if String.eqb name ENV_MODEL then "model"
  else if String.eqb name ENV_MAX_TOKENS then "max_tokens"
  else "workspace_dir".

(** [os.getenv(name)] being truthy: set, and not the empty string. *)
Definition getenv_truthy (environ : gmap string string) (name : string)
  : option string :=
  match environ !! name with
  | Some s => if str_truthy s then Some s else None
  | None => None
  end.

Definition _read_env (environ : gmap string string) : result dict :=
  let env_map : dict := ∅ in
  let env_map :=
    match getenv_truthy environ ENV_API_KEY with
    | Some api_key => <["api_key" := VStr api_key]> env_map
    | None => env_map
    end in
  let env_map :=
    match getenv_truthy environ ENV_MODEL with
    | Some model => <["model" := VStr model]> env_map
    | None => env_map
    end in
  env_map ←
    match getenv_truthy environ ENV_MAX_TOKENS with
    | Some max_tokens =>
        match py_int max_tokens with
        | Some n => Ok (<["max_tokens" := VInt n]> env_map)
        | None => Raise (ConfigError "OPENENCODE_MAX_TOKENS must be an integer")
        end
    | None => Ok env_map
    end;
  let env_map :=
    match getenv_truthy environ ENV_WORKSPACE_DIR with
    | Some workspace_dir => <["workspace_dir" := VStr workspace_dir]> env_map
    | None => env_map
    end in
  Ok env_map.

Definition _read_yaml (fs : filesystem) (path : Path) : result pydict :=
  if negb (path_exists fs path) then Ok ∅
  else
    text ← read_text fs path;
    match yaml_safe_load text with
    | None => Raise (ConfigError ("Invalid YAML in " ++ str_of_Path path))
    | Some parsed =>
        let data := if truthy parsed then parsed else VDict ∅ in
        match data with
        | VDict d => Ok (PyDict d [])
        | VMapping d others => Ok (PyDict d others)
        | _ => Raise (ConfigError
                 ("Config file " ++ str_of_Path path ++ " must contain a mapping"))
        end
    end.

(** The file system left behind and the exception raised, if any. *)
Definition _write_yaml (fs : filesystem) (path : Path) (data : list (string * value))
  : filesystem * option exn :=
  match write_text fs path (yaml_safe_dump data) with
  | (fs', None) => (fs', None)
  | (fs', Some (OSError _)) =>
      (fs', Some (ConfigError ("Unable to write config to " ++ str_of_Path path)))
  | (fs', Some e) => (fs', Some e)
  end.

(** [{**user_data, **project_data, **env_data}] *)
Definition merged (user_data project_data env_data : dict) : dict :=
  dict_update (dict_update user_data project_data) env_data.

(** [ConfigSource(path=..., exists=..., loaded=..., data=...)]: the model
    validates [data] as [dict[str, Any]], so a key that is no string is a
    [ValidationError]; the record then holds the items under string keys. *)
Definition ConfigSource_new (p : Path) (e l : bool) (d : pydict)
  : result ConfigSource :=
  match other_items d with
  | [] => Ok {| path := p; exists_ := e; loaded := l; data := str_items d |}
  | _ :: _ => Raise (ValidationError ["data"])
  end.

(** By the time the three mappings are merged both files' mappings have
    passed [ConfigSource_new], so their items are those under string keys. *)
Definition load (self : ConfigManager) (fs : filesystem)
    (environ : gmap string string) (cwd : option Path) : result ConfigLoadResult :=
  let paths := resolve_paths self cwd in
  user_data ← _read_yaml fs (user_config_file paths);
  user_source ← ConfigSource_new (user_config_file paths)
                   (path_exists fs (user_config_file paths))
                   (dict_truthy user_data) user_data;
  let sources := [user_source] in
  project_data ← _read_yaml fs (project_config_file paths);
  project_source ← ConfigSource_new (project_config_file paths)
                      (path_exists fs (project_config_file paths))
                      (dict_truthy project_data) project_data;
  let sources := (sources ++ [project_source])%list in
  env_data ← _read_env environ;
  let merged := merged (str_items user_data) (str_items project_data) env_data in
  config ← model_validate merged;
  Ok {| config := config; sources := sources |}.


(** The file system after the call, and what the call returns or raises. *)
Definition write_default (self : ConfigManager) (fs : filesystem) (force : bool)
  : filesystem * result Path :=
  let paths := resolve_paths self None in
  if path_exists fs (user_config_file paths) && negb force
  then (fs, Ok (user_config_file paths))
  else
    match mkdir_parents fs (user_config_dir paths) with
    | (fs1, Some e) => (fs1, Raise e)
    | (fs1, None) =>
        let default_config := model_dump OpencodeConfig_default in
        match _write_yaml fs1 (user_config_file paths) default_config with
        | (fs2, Some e) => (fs2, Raise e)
        | (fs2, None) => (fs2, Ok (user_config_file paths))
        end
    end.

End Config.

(** ** wrapper.py *)

Section Wrapper.
Context `{Host}.

(** [class RunResult(BaseModel)] *)
Record RunResult := {
  returncode : Z;
  stdout : option string;
  stderr : option string
}.

(** [class CommandSpec(BaseModel)] *)
Record CommandSpec := { executable : string }.

(** [CommandSpec()] *)
Definition CommandSpec_default : CommandSpec := {| executable := "opencode" |}.

(** [class OpencodeRunner] *)
Record OpencodeRunner := { command : CommandSpec }.

(** [OpencodeRunner()] *)
Definition OpencodeRunner_default : OpencodeRunner :=
  {| command := CommandSpec_default |}.

(** [subprocess.CompletedProcess] *)
Record CompletedProcess := {
  cp_returncode : Z;
  cp_stdout : option string;
  cp_stderr : option string
}.

Definition CR : ascii := "013"%char.
Definition LF : ascii := "010"%char.

(** [data.replace("\r\n", "\n").replace("\r", "\n")], what [subprocess]
    does to decoded text. *)
Fixpoint translate_newlines (s : string) : string :=
  match s with
  | EmptyString => EmptyString
  | String c rest =>
      if Ascii.eqb c CR then
        match rest with
        | String c' rest' =>
            if Ascii.eqb c' LF then String LF (translate_newlines rest')
            else String LF (translate_newlines rest)
        | EmptyString => String LF EmptyString
        end
      else String c (translate_newlines rest)
  end.

(** [subprocess.run(command, env=env, cwd=cwd, check=False)], with
    [text=True, capture_output=True] when [capture] is set.  Captured, the
    bytes of each stream are decoded in the locale's encoding, standard
    output first, and their line ends translated; otherwise the streams are
    inherited and reported as [None].  With [check=False] no exit status
    raises. *)
Definition subprocess_run (command : list string) (env : gmap string string)
    (cwd : option Path) (capture : bool) : result CompletedProcess :=
  match child command env cwd with
  | SpawnFailed e => Raise (OSError e)
  | SpawnRejected => Raise ValueError
  | Started behaviour =>
      let '(status, out, err) := behaviour capture in
      if capture then
        match locale_decode out, locale_decode err with
        | Some out_text, Some err_text =>
            Ok {| cp_returncode := status;
                  cp_stdout := Some (translate_newlines out_text);
                  cp_stderr := Some (translate_newlines err_text) |}
        | _, _ => Raise UnicodeDecodeError
        end
      else Ok {| cp_returncode := status; cp_stdout := None; cp_stderr := None |}
  end.

(** [str(n)] for an [int] *)
Definition str_of_int (n : Z) : string := pretty n.

Definition _build_env (environ : gmap string string) (config : OpencodeConfig)
  : gmap string string :=
  let env := environ in
  let env :=
    match api_key config with
    | Some k => if str_truthy k then <[ENV_API_KEY := k]> env else env
    | None => env
    end in
  let env := <[ENV_MODEL := model config]> env in
  let env := <[ENV_MAX_TOKENS := str_of_int (max_tokens config)]> env in
  let env := <[ENV_WORKSPACE_DIR := str_of_Path (workspace_dir config)]> env in
  env.

(** The handler [except FileNotFoundError] of [run]. *)
Definition not_found_guard {A} (r : result A) : result A :=
  match r with
  | Raise (OSError FileNotFoundError) =>
      Raise (RuntimeError "opencode executable not found in PATH")
  | _ => r
  end.

Definition run (self : OpencodeRunner) (environ : gmap string string)
    (config : OpencodeConfig) (args : list string) (interactive : bool)
    (working_dir : option Path) : result RunResult :=
  let command := executable (command self) :: args in
  let env := _build_env environ config in
  if interactive then
    not_found_guard
      (completed ← subprocess_run command env working_dir false;
       Ok {| returncode := cp_returncode completed;
             stdout := None; stderr := None |})
  else
    completed ← not_found_guard (subprocess_run command env working_dir true);
    Ok {| returncode := cp_returncode completed;
          stdout := cp_stdout completed;
          stderr := cp_stderr completed |}.

End Wrapper.

(** ** cli.py: the [run] command *)

Section Cli.
Context `{Host}.

(** How a command ends: [typer.Exit(code)] (a plain return is status 0), or
    an exception no handler of the command catches. *)
Inductive ending :=
| Exit (code : Z)
| Unhandled (e : exn).

Definition opt_truthy (o : option string) : list string :=
  match o with
  | Some s => if str_truthy s then [s] else []
  | None => []
  end.

(** What the command echoes on standard output and on standard error, and
    how it ends.  The first handler is [except ConfigError], the second
    [except RuntimeError], which catches a [ConfigError] as well. *)
Definition cli_run (fs : filesystem) (environ : gmap string string)
    (args : option (list string)) (non_interactive : bool)
  : list string * list string * ending :=
  let manager := ConfigManager_default in
  match load manager fs environ None with
  | Raise (ConfigError msg) => ([msg], [], Exit 1)
  | Raise e => ([], [], Unhandled e)
  | Ok load_result =>
      let runner := OpencodeRunner_default in
      match run runner environ (config load_result) (default [] args)
              (negb non_interactive) None with
      | Raise (ConfigError msg) | Raise (RuntimeError msg) => ([msg], [], Exit 1)
      | Raise e => ([], [], Unhandled e)
      | Ok result =>
          (opt_truthy (stdout result), opt_truthy (stderr result),
           if Z.eqb (returncode result) 0 then Exit 0
           else Exit (returncode result))
      end
  end.


(** The [config path] command: the two lines it echoes. *)
Definition cli_config_path : list string :=
  let manager := ConfigManager_default in
  let paths := resolve_paths manager None in
  [ "User config: " ++ str_of_Path (user_config_file paths);
    "Project config: " ++ str_of_Path (project_config_file paths) ].

End Cli.

(** ** A concrete host *)

(** The hosts below fix a user [u] with home [/home/u] and current directory
    [/work]; they run the definitions above on concrete inputs. *)
Module Demo.

Definition digit_of (c : ascii) : option Z :=
  let n := Z.of_nat (nat_of_ascii c) in
  if (48 <=? n) && (n <=? 57) then Some (n - 48) else None.

Fixpoint digits (s : string) (acc : Z) : option Z :=
  match s with
  | EmptyString => Some acc
  | String c rest =>
      match digit_of c with
      | Some d => digits rest (10 * acc + d)
      | None => None
      end
  end.

(** Signed decimal numerals, the common part of [int(s)] and of the lax
    integer conversion. *)
Definition decimal (s : string) : option Z :=
  match s with
  | EmptyString => None
  | String "-" EmptyString | String "+" EmptyString => None
  | String "-" rest => Z.opp <$> digits rest 0
  | String "+" rest => digits rest 0
  | _ => digits s 0
  end.

(** A decoder that knows a handful of documents. *)
Definition safe_load (text : string) : option value :=
  if String.eqb text "" then Some VNone
  else if String.eqb text "[]" then Some (VList [])
  else if String.eqb text "- gpt-4" then Some (VList [VStr "gpt-4"])
  else if String.eqb text "model: a" then Some (VDict {["model" := VStr "a"]})
  else if String.eqb text "model: b" then Some (VDict {["model" := VStr "b"]})
  else if String.eqb text "max_tokens: 0" then Some (VDict {["max_tokens" := VInt 0]})
  else if String.eqb text "max_tokens: 1" then Some (VDict {["max_tokens" := VInt 1]})
  else if String.eqb text "1: a" then Some (VMapping ∅ [(KInt 1, VStr "a")])
  else if String.eqb text "{" then None
  else Some (VStr text).

Definition dump_scalar (v : value) : string :=
  match v with
  | VNone => "null"
  | VBool b => if b then "true" else "false"
  | VInt n => pretty n
  | VStr s => s
  | _ => "?"
  end.

Definition newline : string := String "010"%char "".

Definition safe_dump (items : list (string * value)) : string :=
  String.concat ""
    (List.map (fun kv => kv.1 ++ ": " ++ dump_scalar kv.2 ++ newline) items).

Definition carriage_return : string := String "013"%char "".

(** [opencode] is installed: it greets, fails, prints its model, writes a
    line ended the DOS way, or writes a byte that is no ASCII, on request;
    [locked] is on the search path without execute permission; nothing else
    is installed. *)
Definition program (command : list string) (env : gmap string string)
    (cwd : option Path) : child_outcome :=
  match command with
  | "opencode" :: "hello" :: _ => Started (fun _ => (0, "hello" ++ newline, ""))
  | "opencode" :: "fail" :: _ => Started (fun _ => (3, "", "boom"))
  | "opencode" :: "model" :: _ =>
      Started (fun _ => (0, default "" (env !! "OPENENCODE_MODEL"), ""))
  | "opencode" :: "dos" :: _ =>
      Started (fun _ => (0, "a" ++ carriage_return ++ newline, ""))
  | "opencode" :: "binary" :: _ => Started (fun _ => (0, String "255"%char "", ""))
  | "opencode" :: _ => Started (fun _ => (0, "", ""))
  | "locked" :: _ => SpawnFailed PermissionError
  | _ => SpawnFailed FileNotFoundError
  end.

(** The ASCII decoder of the C locale. *)
Fixpoint ascii_decode (bytes : string) : option string :=
  match bytes with
  | EmptyString => Some EmptyString
  | String c rest =>
      if (nat_of_ascii c <? 128)%nat then String c <$> ascii_decode rest
      else None
  end.

Definition host : Host := {|
  user_config_path := fun app => Path_of_str ("/home/u/.config/" ++ app);
  path_cwd := Path_of_str "/work";
  os_path_expanduser := fun s => if String.eqb s "~" then "/home/u" else s;
  yaml_safe_load := safe_load;
  yaml_safe_dump := safe_dump;
  py_int := decimal;
  str_as_int := decimal;
  locale_decode := ascii_decode;
  refuses := fun _ _ => None;
  child := program
|}.

(** The same host with [opencode] on the search path but without execute
    permission. *)
Definition locked_host : Host := {|
  user_config_path := fun app => Path_of_str ("/home/u/.config/" ++ app);
  path_cwd := Path_of_str "/work";
  os_path_expanduser := fun s => if String.eqb s "~" then "/home/u" else s;
  yaml_safe_load := safe_load;
  yaml_safe_dump := safe_dump;
  py_int := decimal;
  str_as_int := decimal;
  locale_decode := ascii_decode;
  refuses := fun _ _ => None;
  child := fun _ _ _ => SpawnFailed PermissionError
|}.

Definition user_file : Path := Path_of_str "/home/u/.config/opencode-wrapper/config.yaml".
Definition project_file : Path := Path_of_str "/work/.opencode.yaml".

(** A file system holding the given files and the directories above them. *)
Definition home_dirs : filesystem :=
  <[Path_of_str "/home" := Dir]>
  (<[Path_of_str "/home/u" := Dir]>
  (<[Path_of_str "/work" := Dir]> ∅)).

Definition config_dirs : filesystem :=
  <[Path_of_str "/home/u/.config" := Dir]>
  (<[Path_of_str "/home/u/.config/opencode-wrapper" := Dir]> home_dirs).

(** The same host with a decoder that also reads back what [safe_dump]
    writes for the default configuration. *)
Definition codec_host : Host := {|
  user_config_path := fun app => Path_of_str ("/home/u/.config/" ++ app);
  path_cwd := Path_of_str "/work";
  os_path_expanduser := fun s => if String.eqb s "~" then "/home/u" else s;
  yaml_safe_load := fun text =>
    if String.eqb text (safe_dump (model_dump OpencodeConfig_default))
    then Some (VDict (list_to_map (model_dump OpencodeConfig_default)))
    else safe_load text;
  yaml_safe_dump := safe_dump;
  py_int := decimal;
  str_as_int := decimal;
  locale_decode := ascii_decode;
  refuses := fun _ _ => None;
  child := program
|}.



End Demo.

(** * Properties *)

Lemma bind_Ok {A B} (a : A) (k : A → result B) : (Ok a ≫= k) = k a.
Proof. reflexivity. Qed.

Lemma bind_Raise {A B} (e : exn) (k : A → result B) : (Raise e ≫= k) = Raise e.
Proof. reflexivity. Qed.

(** ** Reading the environment *)

Section EnvProperties.
Context `{Host}.

Lemma getenv_truthy_delete_empty (environ : gmap string string) name n :
  environ !! name = Some "" →
  getenv_truthy (delete name environ) n = getenv_truthy environ n.
Proof.
  intros Hempty. unfold getenv_truthy.
  destruct (decide (name = n)) as [->|Hne].
  - by rewrite lookup_delete_eq, Hempty.
  - by rewrite lookup_delete_ne.
Qed.

Lemma getenv_truthy_empty (environ : gmap string string) name :
  environ !! name = Some "" → getenv_truthy environ name = None.
Proof. intros Hempty. unfold getenv_truthy. by rewrite Hempty. Qed.

Lemma getenv_truthy_Some (environ : gmap string string) name s :
  environ !! name = Some s → s ≠ "" → getenv_truthy environ name = Some s.
Proof.
  intros Hs Hne. unfold getenv_truthy, str_truthy. rewrite Hs.
  destruct (String.eqb_spec s ""); [done | reflexivity].
Qed.


Lemma read_env_delete_empty (environ : gmap string string) name :
  environ !! name = Some "" →
  _read_env (delete name environ) = _read_env environ.
Proof.
  intros Hempty. unfold _read_env.
  by rewrite !(getenv_truthy_delete_empty environ name) by done.
Qed.

(** The mapping [_read_env] builds, key by key, when it returns. *)
Lemma read_env_lookup (environ : gmap string string) d name :
  _read_env environ = Ok d →
  name ∈ recognized →
  getenv_truthy environ name = None →
  d !! key_of name = None.
Proof.
  unfold _read_env. intros Hd Hin Hnone.
  destruct (getenv_truthy environ ENV_MAX_TOKENS) as [t|] eqn:Ht; simpl in Hd.
  - destruct (py_int t) as [n|]; simpl in Hd; [|discriminate].
    injection Hd as <-.
    repeat (apply elem_of_cons in Hin as [->|Hin]); try (by inversion Hin);
      try congruence; unfold key_of; simpl;
      rewrite Hnone; vm_compute String.eqb; cbv iota;
      repeat (case_match; simplify_map_eq); done.
  - injection Hd as <-.
    repeat (apply elem_of_cons in Hin as [->|Hin]); try (by inversion Hin);
      unfold key_of; simpl;
      rewrite ?Hnone; vm_compute String.eqb; cbv iota;
      repeat (case_match; simplify_map_eq); done.
Qed.

(** A variable set to the empty string never reaches [int()]. *)
Lemma read_env_empty_max_tokens (environ : gmap string string) :
  environ !! ENV_MAX_TOKENS = Some "" → ∃ d, _read_env environ = Ok d.
Proof.
  intros Hempty. unfold _read_env.
  rewrite (getenv_truthy_empty environ ENV_MAX_TOKENS) by done.
  simpl. eauto.
Qed.

End EnvProperties.

(** C10: a recognized variable set to the empty string is treated exactly as
    if it were absent.  Reading the environment, and so the whole of [load],
    gives the same result as with the variable deleted; the variable
    contributes no key to the mapping; and an empty
    [OPENENCODE_MAX_TOKENS] raises nothing, since the empty string is never
    handed to [int()]. *)
Theorem empty_variable_is_absent `{Host} (self : ConfigManager)
    (fs : filesystem) (environ : gmap string string) (cwd : option Path)
    (name : string) :
  name ∈ recognized →
  environ !! name = Some "" →
  _read_env environ = _read_env (delete name environ)
  ∧ load self fs environ cwd = load self fs (delete name environ) cwd
  ∧ (∀ d, _read_env environ = Ok d → d !! key_of name = None)
  ∧ (name = ENV_MAX_TOKENS → ∃ d, _read_env environ = Ok d).
Proof.
  intros Hin Hempty.
  assert (_read_env (delete name environ) = _read_env environ) as Heq
    by by apply read_env_delete_empty.
  repeat split.
  - done.
  - unfold load. by rewrite Heq.
  - intros d Hd. eapply read_env_lookup; [done..|].
    by apply getenv_truthy_empty.
  - intros ->. by apply read_env_empty_max_tokens.
Qed.

Lemma empty_variable_is_absent_witness :
  let environ : gmap string string := {[ENV_MAX_TOKENS := ""]} in
  ENV_MAX_TOKENS ∈ recognized
  ∧ environ !! ENV_MAX_TOKENS = Some ""
  ∧ py_int (Host := Demo.host) "" = None
  ∧ ∃ d, _read_env (H := Demo.host) environ = Ok d.
Proof.
  intros environ.
  assert (ENV_MAX_TOKENS ∈ recognized) as Hin
    by (unfold recognized; apply elem_of_cons; right; apply elem_of_cons; right;
        apply elem_of_cons; left; reflexivity).
  assert (environ !! ENV_MAX_TOKENS = Some "") as Hempty by reflexivity.
  split; [exact Hin|]. split; [exact Hempty|]. split; [reflexivity|].
  exact (proj2 (proj2 (proj2
    (empty_variable_is_absent (H := Demo.host) ConfigManager_default ∅ environ None
       ENV_MAX_TOKENS Hin Hempty))) eq_refl).
Defined.

(** ** Running the child *)

(** C9: the child environment is the process environment with the overlay
    on top.  Key by key: the workspace, max-tokens and model variables always
    hold the string forms of the configuration's fields, whatever was
    inherited; the API key variable holds [config.api_key] when that is a
    non-empty string and is inherited otherwise; every other variable is
    inherited unchanged. *)
Theorem build_env_overlay `{Host} (environ : gmap string string)
    (config : OpencodeConfig) (k : string) :
  _build_env environ config !! k =
    if decide (k = ENV_WORKSPACE_DIR) then Some (str_of_Path (workspace_dir config))
    else if decide (k = ENV_MAX_TOKENS) then Some (str_of_int (max_tokens config))
    else if decide (k = ENV_MODEL) then Some (model config)
    else if decide (k = ENV_API_KEY) then
      match api_key config with
      | Some s => if str_truthy s then Some s else environ !! k
      | None => environ !! k
      end
    else environ !! k.
Proof.
  unfold _build_env.
  repeat case_decide; subst; simplify_map_eq; try done.
  - destruct (api_key config) as [s|]; [|done].
    destruct (str_truthy s); by simplify_map_eq.
  - destruct (api_key config) as [s|]; [|done].
    destruct (str_truthy s); by simplify_map_eq.
Qed.

(** What [run] does for each outcome of starting the child. *)
Lemma run_by_outcome `{Host} (self : OpencodeRunner)
    (environ : gmap string string) (config : OpencodeConfig)
    (args : list string) (interactive : bool) (working_dir : option Path) :
  match child (executable (command self) :: args) (_build_env environ config)
          working_dir with
  | SpawnFailed FileNotFoundError =>
      run self environ config args interactive working_dir =
        Raise (RuntimeError "opencode executable not found in PATH")
  | SpawnFailed e =>
      run self environ config args interactive working_dir = Raise (OSError e)
  | SpawnRejected =>
      run self environ config args interactive working_dir = Raise ValueError
  | Started behaviour =>
      run self environ config args interactive working_dir =
        let '(status, out, err) := behaviour (negb interactive) in
        if interactive
        then Ok {| returncode := status; stdout := None; stderr := None |}
        else match locale_decode out, locale_decode err with
             | Some out_text, Some err_text =>
                 Ok {| returncode := status;
                       stdout := Some (translate_newlines out_text);
                       stderr := Some (translate_newlines err_text) |}
             | _, _ => Raise UnicodeDecodeError
             end
  end.
Proof.
  unfold run, subprocess_run.
  destruct (child _ _ _) as [e| |behaviour].
  - by destruct e, interactive.
  - by destruct interactive.
  - destruct interactive; simpl.
    + by destruct (behaviour false) as [[status out] err].
    + destruct (behaviour true) as [[status out] err].
      by destruct (locale_decode out), (locale_decode err).
Qed.




(** C7, as the code has it: when the operating system reports the executable
    as not found, [run] raises the [RuntimeError] "opencode executable not
    found in PATH" in both modes, and that error is no [ConfigError].  Any
    other failure of the operating system to start the child is raised as
    the operating system's error, and a command line or environment rejected
    before the start as [ValueError].  A child that ran, whatever its exit
    status, never produces the "not found" error: [run] then returns a
    result with the child's status, or raises [UnicodeDecodeError]. *)
Theorem run_executable_not_found `{Host} (self : OpencodeRunner)
    (environ : gmap string string) (config : OpencodeConfig)
    (args : list string) (interactive : bool) (working_dir : option Path) :
  child (executable (command self) :: args) (_build_env environ config)
    working_dir = SpawnFailed FileNotFoundError →
  run self environ config args interactive working_dir =
    Raise (RuntimeError "opencode executable not found in PATH")
  ∧ is_ConfigError (RuntimeError "opencode executable not found in PATH") = false
  ∧ (∀ environ' config' args' interactive' working_dir' oe,
       child (executable (command self) :: args') (_build_env environ' config')
         working_dir' = SpawnFailed oe →
       oe ≠ FileNotFoundError →
       run self environ' config' args' interactive' working_dir'
         = Raise (OSError oe))
  ∧ (∀ environ' config' args' interactive' working_dir',
       child (executable (command self) :: args') (_build_env environ' config')
         working_dir' = SpawnRejected →
       run self environ' config' args' interactive' working_dir'
         = Raise ValueError)
  ∧ (∀ environ' config' args' interactive' working_dir' behaviour,
       child (executable (command self) :: args') (_build_env environ' config')
         working_dir' = Started behaviour →
       (∃ r, run self environ' config' args' interactive' working_dir' = Ok r
             ∧ returncode r = (behaviour (negb interactive')).1.1)
       ∨ (interactive' = false
          ∧ run self environ' config' args' interactive' working_dir'
              = Raise UnicodeDecodeError)).
Proof.
  intros Hchild. split; [|split; [done|split; [|split]]].
  - pose proof (run_by_outcome self environ config args interactive working_dir)
      as Hrun.
    by rewrite Hchild in Hrun.
  - intros environ' config' args' interactive' working_dir' oe Hfailed Hoe.
    pose proof (run_by_outcome self environ' config' args' interactive'
                  working_dir') as Hrun.
    rewrite Hfailed in Hrun. by destruct oe.
  - intros environ' config' args' interactive' working_dir' Hrejected.
    pose proof (run_by_outcome self environ' config' args' interactive'
                  working_dir') as Hrun.
    by rewrite Hrejected in Hrun.
  - intros environ' config' args' interactive' working_dir' behaviour Hran.
    pose proof (run_by_outcome self environ' config' args' interactive'
                  working_dir') as Hrun.
    rewrite Hran in Hrun. rewrite Hrun.
    destruct (behaviour (negb interactive')) as [[status out] err].
    destruct interactive'; [left; eauto|].
    destruct (locale_decode out), (locale_decode err); eauto.
Qed.

Lemma run_executable_not_found_witness :
  let runner := {| command := {| executable := "opencode-missing" |} |} in
  child (Host := Demo.host) ["opencode-missing"]
    (_build_env ∅ OpencodeConfig_default) None = SpawnFailed FileNotFoundError
  ∧ run (H := Demo.host) runner ∅ OpencodeConfig_default [] true None =
      Raise (RuntimeError "opencode executable not found in PATH").
Proof.
  intros runner. split; [reflexivity|].
  exact (proj1 (run_executable_not_found (H := Demo.host) runner ∅
                  OpencodeConfig_default [] true None eq_refl)).
Defined.

(** C7 as stated fails: an executable that is found but may not be executed
    cannot be started either, and [run] lets the operating system's
    [PermissionError] through instead of raising "executable not found". *)
Lemma run_permission_error_propagates :
  child (Host := Demo.locked_host) ["opencode"]
    (_build_env ∅ OpencodeConfig_default) None = SpawnFailed PermissionError
  ∧ run (H := Demo.locked_host) OpencodeRunner_default ∅ OpencodeConfig_default
      [] true None = Raise (OSError PermissionError)
  ∧ run (H := Demo.locked_host) OpencodeRunner_default ∅ OpencodeConfig_default
      [] false None = Raise (OSError PermissionError)
  ∧ run (H := Demo.locked_host) OpencodeRunner_default ∅ OpencodeConfig_default
      [] true None ≠ Raise (RuntimeError "opencode executable not found in PATH").
Proof. repeat split; done. Qed.

(** ** Merging the three sources *)

Section MergeProperties.
Context `{Host}.

Lemma merged_lookup (user_data project_data env_data : dict) (k : string) :
  merged user_data project_data env_data !! k =
    match env_data !! k with
    | Some v => Some v
    | None =>
        match project_data !! k with
        | Some v => Some v
        | None => user_data !! k
        end
    end.
Proof.
  unfold merged, dict_update. rewrite !lookup_union.
  destruct (env_data !! k), (project_data !! k), (user_data !! k); done.
Qed.

Lemma ConfigSource_new_str_keys (p : Path) (e l : bool) (d : pydict) :
  other_items d = [] →
  ConfigSource_new p e l d =
    Ok {| path := p; exists_ := e; loaded := l; data := str_items d |}.
Proof. intros Hd. unfold ConfigSource_new. by rewrite Hd. Qed.

Lemma ConfigSource_new_other_key (p : Path) (e l : bool) (d : pydict) :
  other_items d ≠ [] →
  ConfigSource_new p e l d = Raise (ValidationError ["data"]).
Proof. intros Hd. unfold ConfigSource_new. by destruct (other_items d). Qed.

(** Once the three sources are read, and the files hold string keys only,
    [load] validates their merge. *)
Lemma load_validates_merged (self : ConfigManager) (fs : filesystem)
    (environ : gmap string string) (cwd : option Path) (u p : pydict)
    (e : dict) :
  _read_yaml fs (user_config_file (resolve_paths self cwd)) = Ok u →
  _read_yaml fs (project_config_file (resolve_paths self cwd)) = Ok p →
  other_items u = [] →
  other_items p = [] →
  _read_env environ = Ok e →
  config <$> load self fs environ cwd
    = model_validate (merged (str_items u) (str_items p) e).
Proof.
  intros Hu Hp Hukeys Hpkeys He. unfold load. cbv zeta.
  rewrite Hu, bind_Ok, ConfigSource_new_str_keys, bind_Ok by done.
  rewrite Hp, bind_Ok, ConfigSource_new_str_keys, bind_Ok by done.
  rewrite He, bind_Ok.
  by destruct (model_validate _).
Qed.

(** A key that is no string in the user file ends [load] before the project
    file is read; in the project file, before the environment is read. *)
Lemma load_other_key_user (self : ConfigManager) (fs : filesystem)
    (environ : gmap string string) (cwd : option Path) (u : pydict) :
  _read_yaml fs (user_config_file (resolve_paths self cwd)) = Ok u →
  other_items u ≠ [] →
  load self fs environ cwd = Raise (ValidationError ["data"]).
Proof.
  intros Hu Hukeys. unfold load. cbv zeta.
  by rewrite Hu, bind_Ok, ConfigSource_new_other_key.
Qed.

Lemma load_other_key_project (self : ConfigManager) (fs : filesystem)
    (environ : gmap string string) (cwd : option Path) (u p : pydict) :
  _read_yaml fs (user_config_file (resolve_paths self cwd)) = Ok u →
  other_items u = [] →
  _read_yaml fs (project_config_file (resolve_paths self cwd)) = Ok p →
  other_items p ≠ [] →
  load self fs environ cwd = Raise (ValidationError ["data"]).
Proof.
  intros Hu Hukeys Hp Hpkeys. unfold load. cbv zeta.
  rewrite Hu, bind_Ok, ConfigSource_new_str_keys, bind_Ok by done.
  by rewrite Hp, bind_Ok, ConfigSource_new_other_key.
Qed.

(** A user file holding [1: a] ends [load] on the provenance record, whatever
    the project file and the environment hold. *)
Lemma load_integer_key_example :
  let fs : filesystem := <[Demo.user_file := File "1: a"]> Demo.config_dirs in
  let environ : gmap string string := {[ENV_MAX_TOKENS := "notanumber"]} in
  _read_yaml (H := Demo.host) fs Demo.user_file
    = Ok (PyDict ∅ [(KInt 1, VStr "a")])
  ∧ load (H := Demo.host) ConfigManager_default fs environ None
    = Raise (ValidationError ["data"]).
Proof. split; reflexivity. Qed.


(** A mapping without any field. *)
Lemma model_validate_no_field (d : dict) :
  d !! "api_key" = None →
  d !! "model" = None →
  d !! "max_tokens" = None →
  d !! "workspace_dir" = None →
  model_validate d = Ok OpencodeConfig_default.
Proof.
  intros Hk Hm Ht Hw. unfold model_validate, field.
  by rewrite Hk, Hm, Ht, Hw.
Qed.

Lemma getenv_truthy_delete_eq (environ : gmap string string) name :
  getenv_truthy (delete name environ) name = None.
Proof. unfold getenv_truthy. by rewrite lookup_delete_eq. Qed.

Lemma getenv_truthy_delete_ne (environ : gmap string string) name n :
  name ≠ n → getenv_truthy (delete name environ) n = getenv_truthy environ n.
Proof. intros Hne. unfold getenv_truthy. by rewrite lookup_delete_ne. Qed.




End MergeProperties.




(** ** Validation *)

Section ValidationProperties.
Context `{Host}.

(** With nothing read from the three sources, [load] returns
    [OpencodeConfig()]: every field is its declared default, taken as it is
    written. *)
Lemma load_defaults (self : ConfigManager) (fs : filesystem)
    (environ : gmap string string) (cwd : option Path) :
  _read_yaml fs (user_config_file (resolve_paths self cwd)) = Ok ∅ →
  _read_yaml fs (project_config_file (resolve_paths self cwd)) = Ok ∅ →
  _read_env environ = Ok ∅ →
  config <$> load self fs environ cwd = Ok OpencodeConfig_default.
Proof.
  intros Hu Hp He.
  rewrite (load_validates_merged self fs environ cwd ∅ ∅ ∅) by done.
  apply model_validate_no_field; by rewrite merged_lookup.
Qed.

(** A file that does not exist reads as the empty mapping. *)
Lemma read_yaml_absent (fs : filesystem) (path : Path) :
  path_exists fs path = false → _read_yaml fs path = Ok ∅.
Proof. intros Hno. unfold _read_yaml. by rewrite Hno. Qed.

(** The bounds of [max_tokens] on an integer. *)
Lemma validate_max_tokens_int (n : Z) :
  validate_max_tokens (VInt n) = Some n ↔ 1 ≤ n ≤ 32000.
Proof.
  unfold validate_max_tokens, in_max_tokens_range. simpl.
  destruct (1 <=? n) eqn:Hlo, (n <=? 32000) eqn:Hhi; simpl;
    split; intros Hn; try done; try lia.
Qed.

Lemma validate_max_tokens_out_of_range (n : Z) :
  ¬ (1 ≤ n ≤ 32000) → validate_max_tokens (VInt n) = None.
Proof.
  intros Hout. unfold validate_max_tokens, in_max_tokens_range. simpl.
  destruct (1 <=? n) eqn:Hlo, (n <=? 32000) eqn:Hhi; simpl; try done; lia.
Qed.

(** An integer in range passes the field and is the resolved value. *)
Lemma model_validate_max_tokens_accepted (d : dict) (n : Z) (c : OpencodeConfig) :
  d !! "max_tokens" = Some (VInt n) →
  1 ≤ n ≤ 32000 →
  field d "max_tokens" default_max_tokens validate_max_tokens = (n, [])
  ∧ (model_validate d = Ok c → max_tokens c = n).
Proof.
  intros Hd Hn.
  assert (field d "max_tokens" default_max_tokens validate_max_tokens = (n, []))
    as Hfield.
  { unfold field. rewrite Hd.
    by rewrite (proj2 (validate_max_tokens_int n) Hn). }
  split; [done|].
  unfold model_validate. rewrite Hfield.
  destruct (field d "api_key" _ _) as [k e1], (field d "model" _ _) as [m e2].
  set (w := match d !! "workspace_dir" with
            | Some v => expand_workspace_dir v
            | None => Ok default_workspace_dir
            end).
  destruct w as [w|e]; [|done].
  rewrite bind_Ok. destruct (e1 ++ e2 ++ [])%list; [|done].
  by intros [= <-].
Qed.

(** What the [before] validator of [workspace_dir] raises is a [TypeError]
    or a plain [RuntimeError]. *)
Lemma expand_workspace_dir_raises (v : value) (e : exn) :
  expand_workspace_dir v = Raise e → is_ConfigError e = false.
Proof.
  unfold expand_workspace_dir, expanduser.
  destruct v; try by intros [= <-].
  repeat case_match; by intros [= <-].
Qed.

(** An integer out of range makes [model_validate] raise, and what it raises
    is never a [ConfigError]. *)
Lemma model_validate_max_tokens_rejected (d : dict) (n : Z) :
  d !! "max_tokens" = Some (VInt n) →
  ¬ (1 ≤ n ≤ 32000) →
  ∃ e, model_validate d = Raise e ∧ is_ConfigError e = false.
Proof.
  intros Hd Hout. unfold model_validate.
  assert (field d "max_tokens" default_max_tokens validate_max_tokens
          = (default_max_tokens, ["max_tokens"])) as ->.
  { unfold field. rewrite Hd. by rewrite validate_max_tokens_out_of_range. }
  destruct (field d "api_key" _ _) as [k e1].
  destruct (field d "model" _ _) as [m e2].
  assert (∃ x l, (e1 ++ e2 ++ ["max_tokens"])%list = x :: l) as (x & l & ->).
  { destruct e1, e2; simpl; eauto. }
  destruct (d !! "workspace_dir") as [v|].
  - destruct (expand_workspace_dir v) as [w|e] eqn:Hw.
    + rewrite bind_Ok. eauto.
    + rewrite bind_Raise. eauto using expand_workspace_dir_raises.
  - rewrite bind_Ok. eauto.
Qed.

End ValidationProperties.

(** C2 on the code: with both files absent and no variable set, [load]
    returns [model = "gpt-4"], [max_tokens = 4096], no [api_key], and the
    [workspace_dir] default exactly as declared, [~/opencode-workspace]: the
    validator that expands the home directory does not run on a default.  The
    home-expanded path is [/home/u/opencode-workspace], which is what the same
    text resolves to when it comes from a source. *)
Theorem default_workspace_dir_is_not_expanded :
  config <$> load (H := Demo.host) ConfigManager_default ∅ ∅ None =
    Ok {| api_key := None; model := "gpt-4"; max_tokens := 4096;
          workspace_dir := Path_of_str "~/opencode-workspace" |}
  ∧ expanduser (H := Demo.host) (Path_of_str "~/opencode-workspace") =
      Ok (Path_of_str "/home/u/opencode-workspace")
  ∧ Path_of_str "~/opencode-workspace" ≠ Path_of_str "/home/u/opencode-workspace"
  ∧ workspace_dir ∘ config <$>
      load (H := Demo.host) ConfigManager_default ∅
        {[ENV_WORKSPACE_DIR := "~/opencode-workspace"]} None =
      Ok (Path_of_str "/home/u/opencode-workspace").
Proof. repeat split; by vm_compute. Qed.

(** C3 on the code: the bounds are the documented ones (1 and 32000 are
    accepted, 0 and 32001 rejected), but the rejection is pydantic's
    [ValidationError], which is no [ConfigError]: the handler of the [run]
    command does not catch it and the command ends on an unhandled
    exception. *)
Theorem max_tokens_rejection_is_not_a_config_error :
  let zero : filesystem :=
    <[Demo.user_file := File "max_tokens: 0"]> Demo.config_dirs in
  let one : filesystem :=
    <[Demo.user_file := File "max_tokens: 1"]> Demo.config_dirs in
  load (H := Demo.host) ConfigManager_default zero ∅ None =
    Raise (ValidationError ["max_tokens"])
  ∧ load (H := Demo.host) ConfigManager_default ∅
      {[ENV_MAX_TOKENS := "32001"]} None = Raise (ValidationError ["max_tokens"])
  ∧ is_ConfigError (ValidationError ["max_tokens"]) = false
  ∧ cli_run (H := Demo.host) zero ∅ None false =
      ([], [], Unhandled (ValidationError ["max_tokens"]))
  ∧ max_tokens ∘ config <$>
      load (H := Demo.host) ConfigManager_default one ∅ None = Ok 1
  ∧ max_tokens ∘ config <$>
      load (H := Demo.host) ConfigManager_default ∅
        {[ENV_MAX_TOKENS := "32000"]} None = Ok 32000.
Proof. repeat split; by vm_compute. Qed.

(** ** Failures of the sources *)

Section SourceProperties.
Context `{Host}.

Lemma mentions_middle (before needle after : string) :
  mentions (before ++ needle ++ after) needle.
Proof. by exists before, after. Qed.

(** A file whose content is a truthy value other than a mapping. *)
Lemma read_yaml_not_a_mapping (fs : filesystem) (path : Path) (text : string)
    (v : value) :
  fs_node fs path = Some (File text) →
  yaml_safe_load text = Some v →
  truthy v = true →
  is_mapping v = false →
  _read_yaml fs path =
    Raise (ConfigError ("Config file " ++ str_of_Path path ++ " must contain a mapping")).
Proof.
  intros Hnode Hload Htrue Hnot. unfold _read_yaml, path_exists, read_text.
  rewrite Hnode. simpl. rewrite Hload, Htrue.
  by destruct v.
Qed.

(** A file whose content is falsy reads as the empty mapping. *)
Lemma read_yaml_falsy (fs : filesystem) (path : Path) (text : string) (v : value) :
  fs_node fs path = Some (File text) →
  yaml_safe_load text = Some v →
  truthy v = false →
  _read_yaml fs path = Ok ∅.
Proof.
  intros Hnode Hload Hfalse. unfold _read_yaml, path_exists, read_text.
  rewrite Hnode. simpl. by rewrite Hload, Hfalse.
Qed.

Lemma read_env_unparseable (environ : gmap string string) (s : string) :
  environ !! ENV_MAX_TOKENS = Some s →
  s ≠ "" →
  py_int s = None →
  _read_env environ = Raise (ConfigError "OPENENCODE_MAX_TOKENS must be an integer").
Proof.
  intros Hs Hne Hint. unfold _read_env.
  rewrite (getenv_truthy_Some environ ENV_MAX_TOKENS s) by done.
  by rewrite Hint.
Qed.

(** [load] raises as soon as one of its three readers does. *)
Lemma load_raises_user (self : ConfigManager) (fs : filesystem)
    (environ : gmap string string) (cwd : option Path) (e : exn) :
  _read_yaml fs (user_config_file (resolve_paths self cwd)) = Raise e →
  load self fs environ cwd = Raise e.
Proof. intros Hu. unfold load. cbv zeta. by rewrite Hu. Qed.

Lemma load_raises_project (self : ConfigManager) (fs : filesystem)
    (environ : gmap string string) (cwd : option Path) (u : pydict) (e : exn) :
  _read_yaml fs (user_config_file (resolve_paths self cwd)) = Ok u →
  other_items u = [] →
  _read_yaml fs (project_config_file (resolve_paths self cwd)) = Raise e →
  load self fs environ cwd = Raise e.
Proof.
  intros Hu Hukeys Hp. unfold load. cbv zeta.
  rewrite Hu, bind_Ok, ConfigSource_new_str_keys, bind_Ok by done.
  by rewrite Hp.
Qed.

Lemma load_raises_env (self : ConfigManager) (fs : filesystem)
    (environ : gmap string string) (cwd : option Path) (u p : pydict)
    (e : exn) :
  _read_yaml fs (user_config_file (resolve_paths self cwd)) = Ok u →
  other_items u = [] →
  _read_yaml fs (project_config_file (resolve_paths self cwd)) = Ok p →
  other_items p = [] →
  _read_env environ = Raise e →
  load self fs environ cwd = Raise e.
Proof.
  intros Hu Hukeys Hp Hpkeys He. unfold load. cbv zeta.
  rewrite Hu, bind_Ok, ConfigSource_new_str_keys, bind_Ok by done.
  rewrite Hp, bind_Ok, ConfigSource_new_str_keys, bind_Ok by done.
  by rewrite He.
Qed.

(** What a [load] that returned went through. *)
Lemma load_Ok (self : ConfigManager) (fs : filesystem)
    (environ : gmap string string) (cwd : option Path) (r : ConfigLoadResult) :
  load self fs environ cwd = Ok r →
  ∃ (u p : pydict) (e : dict) (c : OpencodeConfig),
    _read_yaml fs (user_config_file (resolve_paths self cwd)) = Ok u
    ∧ other_items u = []
    ∧ _read_yaml fs (project_config_file (resolve_paths self cwd)) = Ok p
    ∧ other_items p = []
    ∧ _read_env environ = Ok e
    ∧ model_validate (merged u p e) = Ok c
    ∧ r = {| config := c;
             sources :=
               [ {| path := user_config_file (resolve_paths self cwd);
                    exists_ := path_exists fs
                                 (user_config_file (resolve_paths self cwd));
                    loaded := dict_truthy u;
                    data := u |};
                 {| path := project_config_file (resolve_paths self cwd);
                    exists_ := path_exists fs
                                 (project_config_file (resolve_paths self cwd));
                    loaded := dict_truthy p;
                    data := p |} ] |}.
Proof.
  unfold load. cbv zeta.
  destruct (_read_yaml fs (user_config_file _)) as [u|] eqn:Hu; [|done].
  rewrite bind_Ok.
  destruct (other_items u) as [|x xs] eqn:Hukeys;
    [|by rewrite ConfigSource_new_other_key by (by rewrite Hukeys)].
  rewrite ConfigSource_new_str_keys, bind_Ok by done.
  destruct (_read_yaml fs (project_config_file _)) as [p|] eqn:Hp; [|done].
  rewrite bind_Ok.
  destruct (other_items p) as [|y ys] eqn:Hpkeys;
    [|by rewrite ConfigSource_new_other_key by (by rewrite Hpkeys)].
  rewrite ConfigSource_new_str_keys, bind_Ok by done.
  destruct (_read_env environ) as [e|]; [|done]. rewrite bind_Ok.
  destruct (model_validate (merged u p e)) as [c|] eqn:Hc; [|done].
  rewrite bind_Ok. intros [= <-]. by exists u, p, e, c.
Qed.


(** [load] fails as soon as the user file fails, holds a key that is no
    string, or the project file does either. *)
Lemma load_raises_before_env (self : ConfigManager) (fs : filesystem)
    (environ : gmap string string) (cwd : option Path) :
  raises (load self fs environ cwd)
  ∨ ∃ u p,
      _read_yaml fs (user_config_file (resolve_paths self cwd)) = Ok u
      ∧ other_items u = []
      ∧ _read_yaml fs (project_config_file (resolve_paths self cwd)) = Ok p
      ∧ other_items p = [].
Proof.
  destruct (_read_yaml fs (user_config_file (resolve_paths self cwd)))
    as [u|e] eqn:Hu; [|left; eexists; by eapply load_raises_user].
  destruct (other_items u) as [|x others] eqn:Hukeys;
    [|left; eexists; eapply load_other_key_user; [done|by rewrite Hukeys]].
  destruct (_read_yaml fs (project_config_file (resolve_paths self cwd)))
    as [p|e] eqn:Hp; [|left; eexists; by eapply load_raises_project].
  destruct (other_items p) as [|y others] eqn:Hpkeys;
    [|left; eexists; eapply load_other_key_project; [done..|by rewrite Hpkeys]].
  right. by exists u, p.
Qed.

End SourceProperties.

(** C4, as the code has it: when [OPENENCODE_MAX_TOKENS] is set to a
    non-empty value that [int()] rejects, [load] fails; once both files have
    been read as mappings with string keys only, the failure is the
    [ConfigError] whose message names the variable. *)
Theorem unparseable_max_tokens_fails `{Host} (self : ConfigManager)
    (fs : filesystem) (environ : gmap string string) (cwd : option Path)
    (s : string) :
  environ !! ENV_MAX_TOKENS = Some s →
  s ≠ "" →
  py_int s = None →
  raises (load self fs environ cwd)
  ∧ (∀ u p,
       _read_yaml fs (user_config_file (resolve_paths self cwd)) = Ok u →
       _read_yaml fs (project_config_file (resolve_paths self cwd)) = Ok p →
       other_items u = [] →
       other_items p = [] →
       load self fs environ cwd =
         Raise (ConfigError "OPENENCODE_MAX_TOKENS must be an integer"))
  ∧ mentions "OPENENCODE_MAX_TOKENS must be an integer" ENV_MAX_TOKENS.
Proof.
  intros Hs Hne Hint.
  pose proof (read_env_unparseable environ s Hs Hne Hint) as Henv.
  split; [|split].
  - destruct (load_raises_before_env self fs environ cwd)
      as [Hraises|(u & p & Hu & Hukeys & Hp & Hpkeys)]; [done|].
    eexists. by eapply load_raises_env.
  - intros u p Hu Hp Hukeys Hpkeys. by eapply load_raises_env.
  - by exists "", " must be an integer".
Qed.

Lemma unparseable_max_tokens_fails_witness :
  let environ : gmap string string := {[ENV_MAX_TOKENS := "notanumber"]} in
  environ !! ENV_MAX_TOKENS = Some "notanumber"
  ∧ "notanumber" ≠ ""
  ∧ py_int (Host := Demo.host) "notanumber" = None
  ∧ load (H := Demo.host) ConfigManager_default ∅ environ None =
      Raise (ConfigError "OPENENCODE_MAX_TOKENS must be an integer").
Proof.
  intros environ.
  assert (environ !! ENV_MAX_TOKENS = Some "notanumber") as Hs by reflexivity.
  assert ("notanumber" ≠ "") as Hne by discriminate.
  assert (py_int (Host := Demo.host) "notanumber" = None) as Hint by reflexivity.
  split; [exact Hs|]. split; [exact Hne|]. split; [exact Hint|].
  exact (proj1 (proj2
    (unparseable_max_tokens_fails (H := Demo.host) ConfigManager_default ∅
       environ None "notanumber" Hs Hne Hint)) ∅ ∅ eq_refl eq_refl eq_refl
    eq_refl).
Defined.

(** C4 as stated fails: the empty string is set and is no integer, yet
    [load] skips it and returns the defaults. *)
Lemma empty_max_tokens_is_skipped :
  ({[ENV_MAX_TOKENS := ""]} : gmap string string) !! ENV_MAX_TOKENS = Some ""
  ∧ py_int (Host := Demo.host) "" = None
  ∧ config <$> load (H := Demo.host) ConfigManager_default ∅
      {[ENV_MAX_TOKENS := ""]} None = Ok OpencodeConfig_default
  ∧ ¬ raises (load (H := Demo.host) ConfigManager_default ∅
                {[ENV_MAX_TOKENS := ""]} None).
Proof.
  repeat split; try by vm_compute.
  intros [e He]. by vm_compute in He.
Qed.

(** C5, as the code has it: a config file that exists and whose parsed
    content is truthy and not a mapping (a non-empty sequence, say) makes
    [_read_yaml] raise the [ConfigError] whose message names the file's path.
    [load] fails; it fails with that very error when the file is the user
    file, and when it is the project file and the user file has been read as
    a mapping with string keys only. *)
Theorem non_mapping_file_fails `{Host} (self : ConfigManager)
    (fs : filesystem) (environ : gmap string string) (cwd : option Path)
    (path : Path) (text : string) (v : value) :
  fs_node fs path = Some (File text) →
  yaml_safe_load text = Some v →
  truthy v = true →
  is_mapping v = false →
  let msg := "Config file " ++ str_of_Path path ++ " must contain a mapping" in
  _read_yaml fs path = Raise (ConfigError msg)
  ∧ mentions msg (str_of_Path path)
  ∧ (path = user_config_file (resolve_paths self cwd) →
     load self fs environ cwd = Raise (ConfigError msg))
  ∧ (path = project_config_file (resolve_paths self cwd) →
     raises (load self fs environ cwd)
     ∧ ∀ u, _read_yaml fs (user_config_file (resolve_paths self cwd)) = Ok u →
            other_items u = [] →
            load self fs environ cwd = Raise (ConfigError msg)).
Proof.
  intros Hnode Hload Htrue Hnot msg.
  pose proof (read_yaml_not_a_mapping fs path text v Hnode Hload Htrue Hnot)
    as Hread.
  split; [done|]. split; [apply mentions_middle|]. split.
  - intros ->. by apply load_raises_user.
  - intros ->. split.
    + destruct (load_raises_before_env self fs environ cwd)
        as [Hraises|(u & p & _ & _ & Hp & _)]; [done|]. congruence.
    + intros u Hu Hukeys. by eapply load_raises_project.
Qed.

Lemma non_mapping_file_fails_witness :
  let fs : filesystem := <[Demo.user_file := File "- gpt-4"]> Demo.config_dirs in
  fs_node fs Demo.user_file = Some (File "- gpt-4")
  ∧ yaml_safe_load (Host := Demo.host) "- gpt-4" = Some (VList [VStr "gpt-4"])
  ∧ truthy (VList [VStr "gpt-4"]) = true
  ∧ is_mapping (VList [VStr "gpt-4"]) = false
  ∧ load (H := Demo.host) ConfigManager_default fs ∅ None =
      Raise (ConfigError
        "Config file /home/u/.config/opencode-wrapper/config.yaml must contain a mapping").
Proof.
  intros fs.
  assert (fs_node fs Demo.user_file = Some (File "- gpt-4")) as Hnode
    by reflexivity.
  assert (yaml_safe_load (Host := Demo.host) "- gpt-4"
          = Some (VList [VStr "gpt-4"])) as Hload by reflexivity.
  assert (truthy (VList [VStr "gpt-4"]) = true) as Htrue by reflexivity.
  assert (is_mapping (VList [VStr "gpt-4"]) = false) as Hnot by reflexivity.
  split; [exact Hnode|]. split; [exact Hload|]. split; [exact Htrue|].
  split; [exact Hnot|].
  exact (proj1 (proj2 (proj2
    (non_mapping_file_fails (H := Demo.host) ConfigManager_default fs ∅ None
       Demo.user_file "- gpt-4" _ Hnode Hload Htrue Hnot))) eq_refl).
Defined.

(** C5 as stated fails: a file holding the empty sequence exists and its
    content is no mapping, yet [_read_yaml] turns the falsy value into the
    empty mapping and [load] returns the defaults. *)
Lemma empty_sequence_file_is_accepted :
  let fs : filesystem := <[Demo.user_file := File "[]"]> Demo.config_dirs in
  path_exists fs Demo.user_file = true
  ∧ yaml_safe_load (Host := Demo.host) "[]" = Some (VList [])
  ∧ _read_yaml (H := Demo.host) fs Demo.user_file = Ok ∅
  ∧ config <$> load (H := Demo.host) ConfigManager_default fs ∅ None =
      Ok OpencodeConfig_default
  ∧ ¬ raises (load (H := Demo.host) ConfigManager_default fs ∅ None).
Proof.
  intros fs. repeat split; try by vm_compute.
  intros [e He]. by vm_compute in He.
Qed.

(** ** The file system and [write_default] *)

Section FileSystemProperties.
Context `{Host}.

Lemma fs_node_parts (fs : filesystem) (p : Path) :
  parts p ≠ [] → fs_node fs p = fs !! p.
Proof. unfold fs_node. by destruct (parts p). Qed.

Lemma parent_snoc (r : string) (l : list string) (x : string) :
  parent (mkPath r (l ++ [x])) = mkPath r l.
Proof. unfold parent. simpl. by rewrite removelast_last. Qed.

Lemma os_mkdir_Ok (fs fs' : filesystem) (p : Path) :
  os_mkdir fs p = Ok fs' →
  fs_node fs p = None ∧ fs_node fs (parent p) = Some Dir ∧ fs' = <[p := Dir]> fs.
Proof.
  unfold os_mkdir. destruct (refuses fs p); [done|].
  destruct (fs_node fs p); [done|].
  destruct (fs_node fs (parent p)) as [[]|]; try done.
  by intros [= <-].
Qed.

Lemma os_mkdir_Raise (fs : filesystem) (p : Path) (e : exn) :
  os_mkdir fs p = Raise e → ∃ oe, e = OSError oe.
Proof.
  unfold os_mkdir. destruct (refuses fs p); [intros [= <-]; eauto|].
  destruct (fs_node fs p); [intros [= <-]; eauto|].
  destruct (fs_node fs (parent p)) as [[]|]; try done; intros [= <-]; eauto.
Qed.


Lemma fs_node_None_parts (fs : filesystem) (p : Path) :
  fs_node fs p = None → parts p ≠ [] ∧ fs !! p = None.
Proof. unfold fs_node. by destruct (parts p). Qed.

Lemma is_dir_insert_Dir (fs : filesystem) (p : Path) :
  parts p ≠ [] → is_dir (<[p := Dir]> fs) p = true.
Proof.
  intros Hp. unfold is_dir. rewrite fs_node_parts by done.
  by rewrite lookup_insert_eq.
Qed.

(** What [mkdir] with parents leaves behind, whether it returns or raises:
    every entry of the file system is as before, or is a new directory; when
    it returns the path is a directory; what it raises is an [OSError]. *)
Lemma mkdir_parents_rev_spec (r : string) (rparts : list string) :
  ∀ (fs fs1 : filesystem) (o : option exn),
    mkdir_parents_rev fs r rparts = (fs1, o) →
    (∀ q, fs1 !! q = fs !! q ∨ (fs !! q = None ∧ fs1 !! q = Some Dir))
    ∧ (o = None → is_dir fs1 (mkPath r (rev rparts)) = true)
    ∧ (∀ e, o = Some e → ∃ oe, e = OSError oe).
Proof.
  induction rparts as [|x rest IH]; intros fs fs1 o.
  - cbn [mkdir_parents_rev]. set (p := mkPath r (rev [])).
    destruct (os_mkdir fs p) as [fs'|e] eqn:Hfirst.
    { apply os_mkdir_Ok in Hfirst as (Hnone & _). done. }
    apply os_mkdir_Raise in Hfirst as [oe ->].
    assert (is_dir fs p = true) as -> by done.
    destruct oe; intros [= <- <-]; (split; [by left|]); split; try done;
      intros e [= <-]; eauto.
  - cbn [mkdir_parents_rev]. set (p := mkPath r (rev (x :: rest))).
    assert (parts p ≠ []) as Hparts.
    { subst p. simpl. by destruct (rev rest). }
    destruct (os_mkdir fs p) as [fs'|e] eqn:Hfirst.
    + intros [= <- <-]. apply os_mkdir_Ok in Hfirst as (Hnone & _ & ->).
      apply fs_node_None_parts in Hnone as [_ Hnone].
      split; [|split; [intros _; by apply is_dir_insert_Dir|done]].
      intros q. destruct (decide (p = q)) as [<-|Hne].
      * right. by rewrite lookup_insert_eq.
      * left. by rewrite lookup_insert_ne.
    + apply os_mkdir_Raise in Hfirst as [oe ->].
      assert ((if is_dir fs p then (fs, None) else (fs, Some (OSError oe)))
                = (fs1, o) →
              (∀ q, fs1 !! q = fs !! q ∨ (fs !! q = None ∧ fs1 !! q = Some Dir))
              ∧ (o = None → is_dir fs1 p = true)
              ∧ (∀ e, o = Some e → ∃ oe', e = OSError oe'))
        as Hforgiven.
      { destruct (is_dir fs p) eqn:Hdir; intros [= <- <-];
          (split; [by left|]); split; try done.
        intros e [= <-]. eauto. }
      destruct oe; try apply Hforgiven.
      destruct (mkdir_parents_rev fs r rest) as [fs1' [e'|]] eqn:Hrec.
      { intros [= <- <-]. apply IH in Hrec as (Hframe & _ & Hos).
        split; [done|]. split; [done|]. intros e [= <-]. by apply Hos. }
      apply IH in Hrec as (Hframe & _ & _).
      destruct (os_mkdir fs1' p) as [fs2|e2] eqn:Hsecond.
      * intros [= <- <-]. apply os_mkdir_Ok in Hsecond as (Hnone & _ & ->).
        apply fs_node_None_parts in Hnone as [_ Hnone].
        split; [|split; [intros _; by apply is_dir_insert_Dir|done]].
        intros q. destruct (decide (p = q)) as [<-|Hne].
        -- right. rewrite lookup_insert_eq.
           destruct (Hframe p) as [Heq|(_ & Hnew)]; [|congruence].
           by rewrite <- Heq.
        -- rewrite lookup_insert_ne by done. apply Hframe.
      * apply os_mkdir_Raise in Hsecond as [oe2 ->].
        assert ((if is_dir fs1' p
                 then (fs1', None) else (fs1', Some (OSError oe2))) = (fs1, o) →
                (∀ q, fs1 !! q = fs !! q
                      ∨ (fs !! q = None ∧ fs1 !! q = Some Dir))
                ∧ (o = None → is_dir fs1 p = true)
                ∧ (∀ e, o = Some e → ∃ oe', e = OSError oe'))
          as Hforgiven2.
        { destruct (is_dir fs1' p) eqn:Hdir; intros [= <- <-];
            (split; [done|]); split; try done.
          intros e [= <-]. eauto. }
        destruct oe2; try apply Hforgiven2.
        intros [= <- <-]. split; [done|]. split; [done|].
        intros e [= <-]. eauto.
Qed.

Lemma mkdir_parents_spec (fs fs1 : filesystem) (p : Path) (o : option exn) :
  mkdir_parents fs p = (fs1, o) →
  (∀ q n, fs_node fs q = Some n → fs_node fs1 q = Some n)
  ∧ (o = None → is_dir fs1 p = true)
  ∧ (∀ e, o = Some e → ∃ oe, e = OSError oe).
Proof.
  intros Hmk. apply mkdir_parents_rev_spec in Hmk as (Hframe & Hdir & Hos).
  rewrite rev_involutive in Hdir. destruct p as [r l].
  split; [|done].
  intros q n. unfold fs_node. destruct (parts q); [done|].
  destruct (Hframe q) as [->|(-> & _)]; done.
Qed.


Lemma open_for_writing_Ok (fs opened : filesystem) (p : Path) :
  open_for_writing fs p = Ok opened →
  opened = <[p := File ""]> fs ∧ is_dir fs (parent p) = true.
Proof.
  unfold open_for_writing, is_dir.
  destruct (fs_node fs p) as [[]|];
    destruct (fs_node fs (parent p)) as [[]|]; try done; by intros [= <-].
Qed.

Lemma open_for_writing_Raise (fs : filesystem) (p : Path) (e : exn) :
  open_for_writing fs p = Raise e → ∃ oe, e = OSError oe.
Proof.
  unfold open_for_writing.
  destruct (fs_node fs p) as [[]|];
    destruct (fs_node fs (parent p)) as [[]|]; try done; intros [= <-]; eauto.
Qed.

(** A write that returns has put the text in the file, inside a directory
    that was there, and has changed no other path. *)
Lemma write_text_Ok (fs fs2 : filesystem) (p : Path) (text : string) :
  write_text fs p text = (fs2, None) →
  fs2 = <[p := File text]> fs ∧ is_dir fs (parent p) = true.
Proof.
  unfold write_text. destruct (refuses fs p) as [[]|]; try done.
  - by destruct (open_for_writing fs p).
  - destruct (open_for_writing fs p) as [opened|] eqn:Hopen; [|done].
    apply open_for_writing_Ok in Hopen as [-> Hdir].
    intros [= <-]. by rewrite insert_insert_eq.
Qed.

(** What a write raises is an [OSError]. *)
Lemma write_text_Raise (fs fs2 : filesystem) (p : Path) (text : string)
    (e : exn) :
  write_text fs p text = (fs2, Some e) → ∃ oe, e = OSError oe.
Proof.
  unfold write_text. destruct (refuses fs p) as [[]|].
  - intros [= <- <-]. eauto.
  - intros [= <- <-]. eauto.
  - destruct (open_for_writing fs p) as [opened|e'] eqn:Hopen.
    + intros [= <- <-]. eauto.
    + intros [= <- <-]. by eapply open_for_writing_Raise.
  - destruct (open_for_writing fs p) as [opened|e'] eqn:Hopen; [done|].
    intros [= <- <-]. by eapply open_for_writing_Raise.
Qed.

End FileSystemProperties.

Section WriteDefaultProperties.
Context `{Host}.

(** The user config file lies directly inside the user config directory. *)
Lemma user_config_file_parent (self : ConfigManager) (cwd : option Path) :
  parent (user_config_file (resolve_paths self cwd)) =
    user_config_dir (resolve_paths self cwd).
Proof.
  unfold resolve_paths. cbn [user_config_file user_config_dir].
  destruct (user_config_path (app_name self)) as [r l].
  change (joinpath (mkPath r l) "config.yaml") with (mkPath r (l ++ ["config.yaml"])).
  apply parent_snoc.
Qed.

Lemma user_config_file_parts (self : ConfigManager) (cwd : option Path) :
  parts (user_config_file (resolve_paths self cwd)) ≠ [].
Proof.
  unfold resolve_paths. cbn [user_config_file].
  destruct (user_config_path (app_name self)) as [r l].
  change (joinpath (mkPath r l) "config.yaml") with (mkPath r (l ++ ["config.yaml"])).
  simpl. by destruct l.
Qed.


(** [_write_yaml] turns every failure of the write into the [ConfigError]. *)
Lemma write_yaml_cases (fs : filesystem) (p : Path)
    (items : list (string * value)) :
  _write_yaml fs p items =
    match write_text fs p (yaml_safe_dump items) with
    | (_, None) => (<[p := File (yaml_safe_dump items)]> fs, None)
    | (fs2, Some _) =>
        (fs2, Some (ConfigError ("Unable to write config to " ++ str_of_Path p)))
    end.
Proof.
  unfold _write_yaml.
  destruct (write_text fs p _) as [fs2 [e|]] eqn:Hwrite.
  - by apply write_text_Raise in Hwrite as [oe ->].
  - by apply write_text_Ok in Hwrite as [-> _].
Qed.

Lemma path_exists_insert_File (fs : filesystem) (self : ConfigManager)
    (text : string) :
  path_exists (<[user_config_file (resolve_paths self None) := File text]> fs)
    (user_config_file (resolve_paths self None)) = true.
Proof.
  unfold path_exists.
  rewrite fs_node_parts by apply user_config_file_parts.
  by rewrite lookup_insert_eq.
Qed.

(** The three ways [write_default] can go once it has decided to write. *)
Lemma write_default_writes (self : ConfigManager) (fs : filesystem)
    (force : bool) :
  path_exists fs (user_config_file (resolve_paths self None)) && negb force = false →
  (∃ fs1 oe, mkdir_parents fs (user_config_dir (resolve_paths self None))
               = (fs1, Some (OSError oe))
             ∧ write_default self fs force = (fs1, Raise (OSError oe)))
  ∨ (∃ fs1 fs2 oe,
        mkdir_parents fs (user_config_dir (resolve_paths self None))
          = (fs1, None)
        ∧ write_text fs1 (user_config_file (resolve_paths self None))
            (yaml_safe_dump (model_dump OpencodeConfig_default))
          = (fs2, Some (OSError oe))
        ∧ write_default self fs force =
                   (fs2, Raise (ConfigError
                      ("Unable to write config to "
                       ++ str_of_Path (user_config_file (resolve_paths self None))))))
  ∨ (∃ fs1, mkdir_parents fs (user_config_dir (resolve_paths self None))
              = (fs1, None)
            ∧ write_default self fs force =
                (<[user_config_file (resolve_paths self None) :=
                     File (yaml_safe_dump (model_dump OpencodeConfig_default))]> fs1,
                 Ok (user_config_file (resolve_paths self None)))).
Proof.
  intros Hwrite. unfold write_default. rewrite Hwrite.
  destruct (mkdir_parents fs _) as [fs1 [e|]] eqn:Hmk.
  - left. apply mkdir_parents_spec in Hmk as (_ & _ & Hos).
    destruct (Hos e eq_refl) as [oe ->]. by exists fs1, oe.
  - rewrite write_yaml_cases.
    destruct (write_text fs1 _ _) as [fs2 [e|]] eqn:Htext.
    + right. left. destruct (write_text_Raise _ _ _ _ _ Htext) as [oe ->].
      by exists fs1, fs2, oe.
    + right. right. by exists fs1.
Qed.

(** X12: after a [write_default] that returned, with or without [force], a
    second call without [force] is a no-op: it returns the same path and
    leaves the file system exactly as the first call left it. *)
Lemma write_default_then_noop (self : ConfigManager) (fs fs' : filesystem)
    (force : bool) (p : Path) :
  write_default self fs force = (fs', Ok p) →
  write_default self fs' false = (fs', Ok p).
Proof.
  destruct (path_exists fs (user_config_file (resolve_paths self None))
            && negb force) eqn:Hnoop.
  - unfold write_default. rewrite Hnoop. intros [= <- <-].
    apply andb_prop in Hnoop as [-> _]. done.
  - destruct (write_default_writes self fs force Hnoop)
      as [(fs1 & oe & _ & ->)|[(fs1 & fs2 & oe & _ & _ & ->)|(fs1 & _ & ->)]];
      try done.
    intros Heq.
    assert (fs' = <[user_config_file (resolve_paths self None) :=
                      File (yaml_safe_dump (model_dump OpencodeConfig_default))]> fs1)
      as -> by congruence.
    assert (p = user_config_file (resolve_paths self None)) as -> by congruence.
    unfold write_default. by rewrite path_exists_insert_File.
Qed.

End WriteDefaultProperties.




(** * Further properties of the resolver *)

(** [_read_env] by cases on what the four variables hold. *)
Lemma read_env_cases `{Host} (environ : gmap string string) :
  _read_env environ =
    match getenv_truthy environ ENV_MAX_TOKENS with
    | Some s =>
        match py_int s with
        | Some n =>
            Ok (from_option (fun w => <["workspace_dir" := VStr w]>) id
                  (getenv_truthy environ ENV_WORKSPACE_DIR)
                  (<["max_tokens" := VInt n]>
                     (from_option (fun m => <["model" := VStr m]>) id
                        (getenv_truthy environ ENV_MODEL)
                        (from_option (fun k => <["api_key" := VStr k]>) id
                           (getenv_truthy environ ENV_API_KEY) ∅))))
        | None => Raise (ConfigError "OPENENCODE_MAX_TOKENS must be an integer")
        end
    | None =>
        Ok (from_option (fun w => <["workspace_dir" := VStr w]>) id
              (getenv_truthy environ ENV_WORKSPACE_DIR)
              (from_option (fun m => <["model" := VStr m]>) id
                 (getenv_truthy environ ENV_MODEL)
                 (from_option (fun k => <["api_key" := VStr k]>) id
                    (getenv_truthy environ ENV_API_KEY) ∅)))
    end.
Proof.
  unfold _read_env.
  destruct (getenv_truthy environ ENV_API_KEY), (getenv_truthy environ ENV_MODEL),
    (getenv_truthy environ ENV_MAX_TOKENS) as [t|],
    (getenv_truthy environ ENV_WORKSPACE_DIR); simpl; try done;
    by destruct (py_int t).
Qed.

(** X1: what the environment contributes, key by key.  When [_read_env]
    returns, the API key, the model and the workspace directory are the
    values of their variables, verbatim, for the variables that are set and
    not empty; [max_tokens] is the integer read from its variable; no other
    key is ever present. *)
Theorem read_env_contents `{Host} (environ : gmap string string) (d : dict) :
  _read_env environ = Ok d →
  d !! "api_key" = VStr <$> getenv_truthy environ ENV_API_KEY
  ∧ d !! "model" = VStr <$> getenv_truthy environ ENV_MODEL
  ∧ d !! "max_tokens" =
      (getenv_truthy environ ENV_MAX_TOKENS ≫= fun s => VInt <$> py_int s)
  ∧ d !! "workspace_dir" = VStr <$> getenv_truthy environ ENV_WORKSPACE_DIR
  ∧ ∀ k, k ∉ ["api_key"; "model"; "max_tokens"; "workspace_dir"] → d !! k = None.
Proof.
  rewrite read_env_cases. intros Hd.
  assert (∀ k, k ∉ ["api_key"; "model"; "max_tokens"; "workspace_dir"] →
               k ≠ "api_key" ∧ k ≠ "model" ∧ k ≠ "max_tokens" ∧ k ≠ "workspace_dir")
    as Hother.
  { intros k Hk. repeat split; intros ->; apply Hk; set_solver. }
  destruct (getenv_truthy environ ENV_API_KEY), (getenv_truthy environ ENV_MODEL),
    (getenv_truthy environ ENV_MAX_TOKENS) as [t|],
    (getenv_truthy environ ENV_WORKSPACE_DIR); simpl in *;
    try (destruct (py_int t); simpl in *; [|done]);
    injection Hd as <-;
    (split; [by simplify_map_eq|]); (split; [by simplify_map_eq|]);
    (split; [by simplify_map_eq|]); (split; [by simplify_map_eq|]);
    intros k Hk; destruct (Hother k Hk) as (? & ? & ? & ?); by simplify_map_eq.
Qed.

Lemma read_env_contents_witness :
  let environ : gmap string string :=
    {[ENV_API_KEY := "sk-1"; ENV_MAX_TOKENS := "512"; ENV_MODEL := ""]} in
  let d : dict := {["api_key" := VStr "sk-1"; "max_tokens" := VInt 512]} in
  _read_env (H := Demo.host) environ = Ok d
  ∧ d !! "api_key" = Some (VStr "sk-1")
  ∧ d !! "model" = None.
Proof.
  intros environ d.
  assert (_read_env (H := Demo.host) environ = Ok d) as Hd by reflexivity.
  split; [exact Hd|].
  pose proof (read_env_contents (H := Demo.host) environ d Hd) as (Hk & Hm & _).
  split; [exact Hk | exact Hm].
Defined.

(** X2: [_read_env] raises in exactly one situation, a non-empty
    [OPENENCODE_MAX_TOKENS] that [int()] rejects, and what it raises is the
    [ConfigError] about that variable; the other three variables can never
    make it fail. *)
Theorem read_env_raises_iff `{Host} (environ : gmap string string) (e : exn) :
  _read_env environ = Raise e ↔
    e = ConfigError "OPENENCODE_MAX_TOKENS must be an integer"
    ∧ ∃ s, environ !! ENV_MAX_TOKENS = Some s ∧ s ≠ "" ∧ py_int s = None.
Proof.
  rewrite read_env_cases. unfold getenv_truthy at 1, str_truthy.
  destruct (environ !! ENV_MAX_TOKENS) as [s|] eqn:Hs.
  - destruct (String.eqb_spec s "") as [->|Hne]; simpl.
    + split; [done|]. by intros (_ & s & [= <-] & Hne & _).
    + destruct (py_int s) eqn:Hint.
      * split; [done|]. intros (_ & s' & [= <-] & _ & Hnone). congruence.
      * split; [intros [= <-]; eauto|]. by intros (-> & _).
  - split; [done|]. by intros (_ & s & [=] & _).
Qed.

(** X3: [_read_env] looks at nothing but the four recognized variables, and
    at each of them only through its non-empty value: two environments in
    which every recognized variable is either empty or unset in both, or
    holds the same value in both, contribute the same mapping or fail
    alike. *)
Theorem read_env_ignores_other_variables `{Host}
    (environ environ' : gmap string string) :
  (∀ name, name ∈ recognized →
           getenv_truthy environ name = getenv_truthy environ' name) →
  _read_env environ = _read_env environ'.
Proof.
  intros Hget. rewrite !read_env_cases.
  rewrite (Hget ENV_API_KEY), (Hget ENV_MODEL), (Hget ENV_MAX_TOKENS),
    (Hget ENV_WORKSPACE_DIR); [done|unfold recognized; set_solver..].
Qed.

Lemma read_env_ignores_other_variables_witness :
  let environ : gmap string string :=
    {[ENV_MODEL := "c"; ENV_API_KEY := ""; "PATH" := "/usr/bin";
      "OPENCODE_MODEL" := "d"]} in
  let environ' : gmap string string := {[ENV_MODEL := "c"]} in
  (∀ name, name ∈ recognized →
           getenv_truthy environ name = getenv_truthy environ' name)
  ∧ _read_env (H := Demo.host) environ = _read_env (H := Demo.host) environ'.
Proof.
  intros environ environ'.
  assert (∀ name, name ∈ recognized →
                  getenv_truthy environ name = getenv_truthy environ' name)
    as Hagree.
  { intros name Hin. unfold recognized in Hin.
    repeat (apply elem_of_cons in Hin as [->|Hin]); try reflexivity.
    by apply elem_of_nil in Hin. }
  split; [exact Hagree|].
  exact (read_env_ignores_other_variables (H := Demo.host) environ environ'
           Hagree).
Defined.

(** X4: keys that are no field of [OpencodeConfig] are ignored by
    validation: adding, changing or removing such a key in the merged mapping
    changes neither the configuration nor the errors. *)
Theorem model_validate_ignores_unknown_key `{Host} (d : dict) (k : string)
    (v : value) :
  k ∉ ["api_key"; "model"; "max_tokens"; "workspace_dir"] →
  model_validate (<[k := v]> d) = model_validate d
  ∧ model_validate (delete k d) = model_validate d.
Proof.
  intros Hk.
  assert (k ≠ "api_key" ∧ k ≠ "model" ∧ k ≠ "max_tokens" ∧ k ≠ "workspace_dir")
    as (? & ? & ? & ?).
  { repeat split; intros ->; apply Hk; set_solver. }
  unfold model_validate, field.
  split.
  - by rewrite !lookup_insert_ne.
  - by rewrite !lookup_delete_ne.
Qed.

Lemma model_validate_ignores_unknown_key_witness :
  ("temperature" ∉ ["api_key"; "model"; "max_tokens"; "workspace_dir"])
  ∧ model_validate (H := Demo.host)
      (<["temperature" := VInt 1]> {["model" := VStr "a"]}) =
    model_validate (H := Demo.host) {["model" := VStr "a"]}.
Proof.
  assert ("temperature" ∉ ["api_key"; "model"; "max_tokens"; "workspace_dir"])
    as Hk.
  { intros Hin. repeat (apply elem_of_cons in Hin as [Heq|Hin]; [discriminate|]).
    by apply elem_of_nil in Hin. }
  split; [exact Hk|].
  exact (proj1 (model_validate_ignores_unknown_key (H := Demo.host)
                  {["model" := VStr "a"]} "temperature" (VInt 1) Hk)).
Defined.

Lemma field_no_error {A} (d : dict) (name : string) (default a : A)
    (validate : value → option A) :
  field d name default validate = (a, []) →
  match d !! name with
  | Some v => validate v = Some a
  | None => a = default
  end.
Proof.
  unfold field. destruct (d !! name) as [v|]; [|by intros [= <-]].
  destruct (validate v); [by intros [= <-]|done].
Qed.

(** The fields of a configuration that validation returns. *)
Lemma model_validate_Ok `{Host} (d : dict) (c : OpencodeConfig) :
  model_validate d = Ok c →
  field d "api_key" default_api_key validate_optional_str = (api_key c, [])
  ∧ field d "model" default_model validate_str = (model c, [])
  ∧ field d "max_tokens" default_max_tokens validate_max_tokens = (max_tokens c, [])
  ∧ match d !! "workspace_dir" with
    | Some v => expand_workspace_dir v = Ok (workspace_dir c)
    | None => workspace_dir c = default_workspace_dir
    end.
Proof.
  unfold model_validate.
  destruct (field d "api_key" _ _) as [k e1].
  destruct (field d "model" _ _) as [m e2].
  destruct (field d "max_tokens" _ _) as [t e3].
  set (w := match d !! "workspace_dir" with
            | Some v => expand_workspace_dir v
            | None => Ok default_workspace_dir
            end).
  assert (match d !! "workspace_dir" with
          | Some v => expand_workspace_dir v = w
          | None => Ok default_workspace_dir = w
          end) as Hw by (subst w; by destruct (d !! "workspace_dir")).
  destruct w as [w|e]; [|done]. rewrite bind_Ok.
  destruct e1, e2, e3; try done. intros [= <-]. simpl.
  repeat split. destruct (d !! "workspace_dir"); congruence.
Qed.

(** X5: every configuration that [load] returns has [max_tokens] within
    [1, 32000], whatever the sources held. *)
Theorem load_max_tokens_in_range `{Host} (self : ConfigManager)
    (fs : filesystem) (environ : gmap string string) (cwd : option Path)
    (r : ConfigLoadResult) :
  load self fs environ cwd = Ok r →
  1 ≤ max_tokens (config r) ≤ 32000.
Proof.
  intros Hr. apply load_Ok in Hr as (u & p & e & c & _ & _ & _ & _ & _ & Hc & ->).
  cbn [config].
  apply model_validate_Ok in Hc as (_ & _ & Ht & _).
  apply field_no_error in Ht.
  destruct (merged u p e !! "max_tokens") as [v|].
  - unfold validate_max_tokens, in_max_tokens_range in Ht.
    destruct (validate_int v) as [n|]; [|done].
    destruct (1 <=? n) eqn:Hlo, (n <=? 32000) eqn:Hhi; simpl in Ht; try done.
    injection Ht as <-. lia.
  - rewrite Ht. by vm_compute.
Qed.

Lemma load_max_tokens_in_range_witness :
  let environ : gmap string string := {[ENV_MAX_TOKENS := "32000"]} in
  (∃ r, load (H := Demo.host) ConfigManager_default ∅ environ None = Ok r)
  ∧ ∀ r, load (H := Demo.host) ConfigManager_default ∅ environ None = Ok r →
         1 ≤ max_tokens (config r) ≤ 32000.
Proof.
  intros environ. split; [eexists; reflexivity|].
  intros r Hr.
  exact (load_max_tokens_in_range (H := Demo.host) ConfigManager_default ∅
           environ None r Hr).
Defined.

(** X6: the provenance [load] reports.  A successful [load] returns exactly
    two sources, the user file first and the project file second; each
    carries its path, whether the path exists, the mapping read from it and
    whether that mapping is non-empty.  A file that does not exist is reported
    with the empty mapping and not loaded; nothing is recorded for the
    environment. *)
Theorem load_sources `{Host} (self : ConfigManager) (fs : filesystem)
    (environ : gmap string string) (cwd : option Path) (r : ConfigLoadResult) :
  load self fs environ cwd = Ok r →
  ∃ u p,
    _read_yaml fs (user_config_file (resolve_paths self cwd)) = Ok u
    ∧ _read_yaml fs (project_config_file (resolve_paths self cwd)) = Ok p
    ∧ sources r =
        [ {| path := user_config_file (resolve_paths self cwd);
             exists_ := path_exists fs (user_config_file (resolve_paths self cwd));
             loaded := negb (is_empty_dict u);
             data := u |};
          {| path := project_config_file (resolve_paths self cwd);
             exists_ := path_exists fs (project_config_file (resolve_paths self cwd));
             loaded := negb (is_empty_dict p);
             data := p |} ]
    ∧ (path_exists fs (user_config_file (resolve_paths self cwd)) = false →
       u = ∅ ∧ negb (is_empty_dict u) = false)
    ∧ (path_exists fs (project_config_file (resolve_paths self cwd)) = false →
       p = ∅ ∧ negb (is_empty_dict p) = false).
Proof.
  intros Hr.
  apply load_Ok in Hr as (u & p & e & c & Hu & Hukeys & Hp & Hpkeys & _ & _ & ->).
  exists u, p. cbn [sources]. unfold dict_truthy. rewrite Hukeys, Hpkeys.
  rewrite !orb_false_r.
  split; [done|]. split; [done|]. split; [done|]. split.
  - intros Hno. rewrite read_yaml_absent in Hu by done. by injection Hu as <-.
  - intros Hno. rewrite read_yaml_absent in Hp by done. by injection Hp as <-.
Qed.

Lemma load_sources_witness :
  let fs : filesystem := <[Demo.user_file := File "model: a"]> Demo.config_dirs in
  (∃ r, load (H := Demo.host) ConfigManager_default fs ∅ None = Ok r)
  ∧ ∀ r, load (H := Demo.host) ConfigManager_default fs ∅ None = Ok r →
         length (sources r) = 2%nat.
Proof.
  intros fs. split; [eexists; reflexivity|].
  intros r Hr.
  destruct (load_sources (H := Demo.host) ConfigManager_default fs ∅ None r Hr)
    as (u & p & _ & _ & -> & _).
  reflexivity.
Defined.

Lemma append_empty_r (s : string) : s ++ "" = s.
Proof.
  induction s as [|c s IH]; [reflexivity|]. exact (f_equal (String c) IH).
Qed.

(** X7: a config file that exists and is not valid YAML makes [_read_yaml]
    raise the [ConfigError] "Invalid YAML in <path>".  [load] fails; it fails
    with that very error when the file is the user file, and when it is the
    project file and the user file has been read as a mapping with string
    keys only. *)
Theorem invalid_yaml_fails `{Host} (self : ConfigManager) (fs : filesystem)
    (environ : gmap string string) (cwd : option Path) (path : Path)
    (text : string) :
  fs_node fs path = Some (File text) →
  yaml_safe_load text = None →
  let msg := "Invalid YAML in " ++ str_of_Path path in
  _read_yaml fs path = Raise (ConfigError msg)
  ∧ mentions msg (str_of_Path path)
  ∧ (path = user_config_file (resolve_paths self cwd) →
     load self fs environ cwd = Raise (ConfigError msg))
  ∧ (path = project_config_file (resolve_paths self cwd) →
     raises (load self fs environ cwd)
     ∧ ∀ u, _read_yaml fs (user_config_file (resolve_paths self cwd)) = Ok u →
            other_items u = [] →
            load self fs environ cwd = Raise (ConfigError msg)).
Proof.
  intros Hnode Hload msg.
  assert (_read_yaml fs path = Raise (ConfigError msg)) as Hread.
  { unfold _read_yaml, path_exists, read_text. rewrite Hnode. simpl.
    by rewrite Hload. }
  split; [done|]. split.
  { exists "Invalid YAML in ", "". by rewrite append_empty_r. }
  split.
  - intros ->. by apply load_raises_user.
  - intros ->. split.
    + destruct (load_raises_before_env self fs environ cwd)
        as [Hraises|(u & p & _ & _ & Hp & _)]; [done|]. congruence.
    + intros u Hu Hukeys. by eapply load_raises_project.
Qed.

Lemma invalid_yaml_fails_witness :
  let fs : filesystem :=
    <[Demo.project_file := File "{"]> Demo.config_dirs in
  fs_node fs Demo.project_file = Some (File "{")
  ∧ yaml_safe_load (Host := Demo.host) "{" = None
  ∧ load (H := Demo.host) ConfigManager_default fs ∅ None =
      Raise (ConfigError "Invalid YAML in /work/.opencode.yaml").
Proof.
  intros fs.
  assert (fs_node fs Demo.project_file = Some (File "{")) as Hnode by reflexivity.
  assert (yaml_safe_load (Host := Demo.host) "{" = None) as Hload by reflexivity.
  split; [exact Hnode|]. split; [exact Hload|].
  exact (proj2 (proj2 (proj2 (proj2
    (invalid_yaml_fails (H := Demo.host) ConfigManager_default fs ∅ None
       Demo.project_file "{" Hnode Hload))) eq_refl) ∅ eq_refl eq_refl).
Defined.

(** X8: validation never raises a [ConfigError].  Whatever the merged
    mapping, a failure of [model_validate] is a [ValidationError], a
    [TypeError] or a plain [RuntimeError]; so once the three sources have
    been read, a failing [load] is never a [ConfigError]. *)
Theorem validation_never_config_error `{Host} (self : ConfigManager)
    (fs : filesystem) (environ : gmap string string) (cwd : option Path)
    (d : dict) (e : exn) :
  (model_validate d = Raise e → is_ConfigError e = false)
  ∧ (∀ u p env,
       _read_yaml fs (user_config_file (resolve_paths self cwd)) = Ok u →
       _read_yaml fs (project_config_file (resolve_paths self cwd)) = Ok p →
       _read_env environ = Ok env →
       load self fs environ cwd = Raise e → is_ConfigError e = false).
Proof.
  assert (∀ d', model_validate d' = Raise e → is_ConfigError e = false) as Hval.
  { intros d'. unfold model_validate.
    destruct (field d' "api_key" _ _) as [k e1].
    destruct (field d' "model" _ _) as [m e2].
    destruct (field d' "max_tokens" _ _) as [t e3].
    destruct (d' !! "workspace_dir") as [v|].
    - destruct (expand_workspace_dir v) as [w|e'] eqn:Hw.
      + rewrite bind_Ok. destruct (e1 ++ e2 ++ e3)%list; [done|by intros [= <-]].
      + rewrite bind_Raise. intros [= <-]. by eapply expand_workspace_dir_raises.
    - rewrite bind_Ok. destruct (e1 ++ e2 ++ e3)%list; [done|by intros [= <-]]. }
  split; [apply Hval|].
  intros u p env Hu Hp He.
  destruct (other_items u) as [|x xs] eqn:Hukeys.
  2: { rewrite (load_other_key_user self fs environ cwd u) by (by rewrite ?Hukeys).
       by intros [= <-]. }
  destruct (other_items p) as [|y ys] eqn:Hpkeys.
  2: { rewrite (load_other_key_project self fs environ cwd u p)
         by (by rewrite ?Hpkeys).
       by intros [= <-]. }
  unfold load. cbv zeta.
  rewrite Hu, bind_Ok, ConfigSource_new_str_keys, bind_Ok by done.
  rewrite Hp, bind_Ok, ConfigSource_new_str_keys, bind_Ok by done.
  rewrite He, bind_Ok.
  destruct (model_validate (merged u p env)) as [c|e'] eqn:Hc; [done|].
  rewrite bind_Raise. intros [= <-]. by eapply Hval.
Qed.

Lemma validation_never_config_error_witness :
  let d : dict := {["model" := VInt 4; "api_key" := VBool true]} in
  model_validate (H := Demo.host) d = Raise (ValidationError ["api_key"; "model"])
  ∧ is_ConfigError (ValidationError ["api_key"; "model"]) = false.
Proof.
  intros d.
  assert (model_validate (H := Demo.host) d
          = Raise (ValidationError ["api_key"; "model"])) as Hd by reflexivity.
  split; [exact Hd|].
  exact (proj1 (validation_never_config_error (H := Demo.host)
                  ConfigManager_default ∅ ∅ None d _) Hd).
Defined.

(** * Further properties of the workspace directory *)

Lemma splitroot_absolute (s : string) :
  (splitroot (String "/" s)).1 ≠ "".
Proof. unfold splitroot. repeat case_match; done. Qed.

Lemma Path_of_str_absolute (s : string) :
  root (Path_of_str (String "/" s)) ≠ "".
Proof.
  unfold Path_of_str. pose proof (splitroot_absolute s) as Hroot.
  by destruct (splitroot (String "/" s)).
Qed.

Lemma expanduser_rooted `{Host} (p : Path) :
  root p ≠ "" → expanduser p = Ok p.
Proof. unfold expanduser. by destruct (root p). Qed.

(** X9: a workspace directory given as an absolute path is taken as it is:
    home expansion never touches it, whatever the host knows about home
    directories. *)
Theorem absolute_workspace_dir_untouched `{Host} (s : string) :
  expand_workspace_dir (VStr (String "/" s)) = Ok (Path_of_str (String "/" s)).
Proof. apply expanduser_rooted, Path_of_str_absolute. Qed.

(** X10: a workspace directory written [~/rest] resolves to the components
    of the current user's home directory followed by the components of
    [rest] (empty and [.] components dropped); when the home directory is an
    absolute path, so is the result. *)
Theorem home_workspace_dir_expanded `{Host} (rest home : string) :
  os_path_expanduser "~" = home →
  starts_with_tilde home = false →
  expand_workspace_dir (VStr ("~/" ++ rest)) =
    Ok (mkPath (root (Path_of_str home))
          (parts (Path_of_str home) ++ List.filter is_part (split_on "/" rest)))
  ∧ (∀ h, home = String "/" h → root (Path_of_str home) ≠ "").
Proof.
  intros Hhome Htilde. split.
  - unfold expand_workspace_dir, expanduser.
    change (Path_of_str ("~/" ++ rest))
      with (mkPath "" ("~" :: List.filter is_part (split_on "/" rest))).
    cbn [root parts starts_with_tilde]. by rewrite Hhome, Htilde.
  - intros h ->. apply Path_of_str_absolute.
Qed.

Lemma home_workspace_dir_expanded_witness :
  os_path_expanduser (Host := Demo.host) "~" = "/home/u"
  ∧ starts_with_tilde "/home/u" = false
  ∧ expand_workspace_dir (H := Demo.host) (VStr "~/proj/./src//") =
      Ok (Path_of_str "/home/u/proj/src").
Proof.
  split; [reflexivity|]. split; [reflexivity|].
  exact (proj1 (home_workspace_dir_expanded (H := Demo.host) "proj/./src//"
                  "/home/u" eq_refl eq_refl)).
Defined.

(** X11: the exceptions of the [workspace_dir] validator leave validation as
    they are, ahead of any field error.  A value that is no string is a
    [TypeError]; a path whose first component is [~] or [~user] with no home
    directory known is the [RuntimeError] "Could not determine home
    directory."; neither is collected into a [ValidationError], and neither
    is a [ConfigError]. *)
Theorem workspace_dir_errors_escape `{Host} (d : dict) (v : value) :
  d !! "workspace_dir" = Some v →
  ((∀ s, v ≠ VStr s) → model_validate d = Raise TypeError)
  ∧ (∀ s first rest,
       v = VStr s →
       Path_of_str s = mkPath "" (first :: rest) →
       starts_with_tilde first = true →
       starts_with_tilde (os_path_expanduser first) = true →
       model_validate d = Raise (RuntimeError "Could not determine home directory.")).
Proof.
  intros Hv. unfold model_validate. rewrite Hv.
  destruct (field d "api_key" _ _) as [k e1].
  destruct (field d "model" _ _) as [m e2].
  destruct (field d "max_tokens" _ _) as [t e3].
  split.
  - intros Hnot. destruct v; try done. by destruct (Hnot s).
  - intros s first rest -> Hpath Hfirst Hhome.
    unfold expand_workspace_dir, expanduser. rewrite Hpath.
    cbn [root parts]. by rewrite Hfirst, Hhome.
Qed.

Lemma workspace_dir_errors_escape_witness :
  let d : dict := {["workspace_dir" := VInt 5; "max_tokens" := VInt 0]} in
  let d' : dict := {["workspace_dir" := VStr "~nobody/x"]} in
  d !! "workspace_dir" = Some (VInt 5)
  ∧ model_validate (H := Demo.host) d = Raise TypeError
  ∧ model_validate (H := Demo.host) d' =
      Raise (RuntimeError "Could not determine home directory.").
Proof.
  intros d d'.
  assert (d !! "workspace_dir" = Some (VInt 5)) as Hd by reflexivity.
  assert (d' !! "workspace_dir" = Some (VStr "~nobody/x")) as Hd' by reflexivity.
  split; [exact Hd|]. split.
  - refine (proj1 (workspace_dir_errors_escape (H := Demo.host) d _ Hd) _).
    discriminate.
  - exact (proj2 (workspace_dir_errors_escape (H := Demo.host) d' _ Hd')
             "~nobody/x" "~nobody" ["x"] eq_refl eq_refl eq_refl eq_refl).
Defined.

(** * Further properties of [write_default] and [config init] *)

Lemma write_default_then_noop_witness :
  let after := write_default (H := Demo.host) ConfigManager_default
                 Demo.home_dirs false in
  write_default (H := Demo.host) ConfigManager_default Demo.home_dirs false =
    (after.1, Ok Demo.user_file)
  ∧ write_default (H := Demo.host) ConfigManager_default after.1 false =
      (after.1, Ok Demo.user_file).
Proof.
  intros after.
  assert (write_default (H := Demo.host) ConfigManager_default Demo.home_dirs
            false = (after.1, Ok Demo.user_file)) as Hfirst.
  { transitivity (after.1, after.2); [apply surjective_pairing|].
    f_equal; reflexivity. }
  split; [exact Hfirst|].
  exact (write_default_then_noop (H := Demo.host) ConfigManager_default
           Demo.home_dirs after.1 false Demo.user_file Hfirst).
Defined.

(** X14: the file [write_default] writes reads back through [load].  With a
    YAML codec that decodes what it dumped, no project file and nothing set
    in the environment, [load] after a [write_default] that wrote returns
    the defaults of [api_key], [model] and [max_tokens], and the
    [workspace_dir] default put through home expansion, since this time the
    text [~/opencode-workspace] comes from a source. *)
Theorem write_default_then_load `{Host} (self : ConfigManager)
    (fs fs' : filesystem) (force : bool) (environ : gmap string string)
    (p : Path) :
  yaml_safe_load (yaml_safe_dump (model_dump OpencodeConfig_default)) =
    Some (VDict (list_to_map (model_dump OpencodeConfig_default))) →
  path_exists fs (user_config_file (resolve_paths self None)) && negb force = false →
  write_default self fs force = (fs', Ok p) →
  path_exists fs' (project_config_file (resolve_paths self None)) = false →
  _read_env environ = Ok ∅ →
  config <$> load self fs' environ None =
    (w ← expanduser default_workspace_dir;
     Ok {| api_key := None; model := "gpt-4"; max_tokens := 4096;
           workspace_dir := w |}).
Proof.
  intros Hcodec Hwrite Hwd Hproject Henv.
  destruct (write_default_writes self fs force Hwrite)
    as [(fs1 & oe & _ & Heq)|[(fs1 & fs2 & oe & _ & _ & Heq)|(fs1 & _ & Heq)]];
    rewrite Heq in Hwd; try done.
  set (file := user_config_file (resolve_paths self None)) in *.
  set (m := list_to_map (model_dump OpencodeConfig_default) : dict) in *.
  assert (fs' = <[file := File (yaml_safe_dump
                    (model_dump OpencodeConfig_default))]> fs1) as ->
    by congruence.
  assert (_read_yaml (<[file := File (yaml_safe_dump
            (model_dump OpencodeConfig_default))]> fs1) file
          = Ok (PyDict m [])) as Hu.
  { unfold _read_yaml, path_exists, read_text.
    rewrite fs_node_parts by apply user_config_file_parts.
    rewrite lookup_insert_eq. simpl. by rewrite Hcodec. }
  rewrite (load_validates_merged self _ environ None (PyDict m []) ∅ ∅);
    [|done|by apply read_yaml_absent|done..].
  cbn [str_items].
  assert (merged m (str_items ∅) ∅ = m) as ->.
  { unfold merged, dict_update. by rewrite !(left_id_L ∅ (∪)). }
  unfold model_validate, field.
  assert (m !! "api_key" = Some VNone) as -> by reflexivity.
  assert (m !! "model" = Some (VStr "gpt-4")) as -> by reflexivity.
  assert (m !! "max_tokens" = Some (VInt 4096)) as -> by reflexivity.
  assert (m !! "workspace_dir" = Some (VStr "~/opencode-workspace")) as ->
    by reflexivity.
  reflexivity.
Qed.

Lemma write_default_then_load_witness :
  let after := write_default (H := Demo.codec_host) ConfigManager_default
                 Demo.home_dirs false in
  config <$> load (H := Demo.codec_host) ConfigManager_default after.1 ∅ None =
    Ok {| api_key := None; model := "gpt-4"; max_tokens := 4096;
          workspace_dir := Path_of_str "/home/u/opencode-workspace" |}.
Proof.
  intros after.
  assert (write_default (H := Demo.codec_host) ConfigManager_default
            Demo.home_dirs false = (after.1, Ok Demo.user_file)) as Hwd.
  { transitivity (after.1, after.2); [apply surjective_pairing|].
    f_equal; reflexivity. }
  exact (write_default_then_load (H := Demo.codec_host) ConfigManager_default
           Demo.home_dirs after.1 false ∅ Demo.user_file
           eq_refl eq_refl Hwd eq_refl eq_refl).
Defined.



(** X16: the paths [config path] shows are the files [load] reads: whenever
    [load] returns for the current directory, the two lines name the path of
    its first source and the path of its second source. *)
Theorem config_path_shows_load_sources `{Host} (fs : filesystem)
    (environ : gmap string string) (r : ConfigLoadResult) :
  load ConfigManager_default fs environ None = Ok r →
  ∃ user project,
    sources r = [user; project]
    ∧ cli_config_path =
        [ "User config: " ++ str_of_Path (path user);
          "Project config: " ++ str_of_Path (path project) ].
Proof.
  intros Hr. apply load_Ok in Hr as (u & p & e & c & _ & _ & _ & _ & _ & _ & ->).
  by eexists _, _.
Qed.

Lemma config_path_shows_load_sources_witness :
  let r :=
    {| config := OpencodeConfig_default;
       sources :=
         [ {| path := Demo.user_file; exists_ := false; loaded := false;
              data := ∅ |};
           {| path := Demo.project_file; exists_ := false; loaded := false;
              data := ∅ |} ] |} in
  load (H := Demo.host) ConfigManager_default ∅ ∅ None = Ok r
  ∧ cli_config_path (H := Demo.host) =
      [ "User config: /home/u/.config/opencode-wrapper/config.yaml";
        "Project config: /work/.opencode.yaml" ].
Proof.
  intros r.
  assert (load (H := Demo.host) ConfigManager_default ∅ ∅ None = Ok r) as Hr
    by reflexivity.
  split; [exact Hr|].
  destruct (config_path_shows_load_sources (H := Demo.host) ∅ ∅ r Hr)
    as (user & project & Hsources & Hlines).
  injection Hsources as <- <-. exact Hlines.
Defined.

(** * Further properties of the invoker and of the [run] command *)

Lemma build_env_lookups `{Host} (environ : gmap string string)
    (config : OpencodeConfig) :
  _build_env environ config !! ENV_MODEL = Some (model config)
  ∧ _build_env environ config !! ENV_MAX_TOKENS
      = Some (str_of_int (max_tokens config))
  ∧ _build_env environ config !! ENV_WORKSPACE_DIR
      = Some (str_of_Path (workspace_dir config))
  ∧ _build_env environ config !! ENV_API_KEY
      = match api_key config with
        | Some k => if str_truthy k then Some k else environ !! ENV_API_KEY
        | None => environ !! ENV_API_KEY
        end.
Proof.
  unfold _build_env. repeat split; simplify_map_eq; try done.
  destruct (api_key config) as [k|]; [|done].
  destruct (str_truthy k); by simplify_map_eq.
Qed.

(** X17: building the child environment loses nothing and settles at once:
    every variable of the process environment is still set in the child
    environment, and building again from the result with the same
    configuration changes nothing. *)
Theorem build_env_keeps_and_settles `{Host} (environ : gmap string string)
    (config : OpencodeConfig) :
  (∀ k, is_Some (environ !! k) → is_Some (_build_env environ config !! k))
  ∧ _build_env (_build_env environ config) config = _build_env environ config.
Proof.
  split.
  - intros k Hk. unfold _build_env.
    destruct (api_key config) as [s|]; [destruct (str_truthy s)|];
      rewrite !lookup_insert; repeat case_decide; done.
  - apply map_eq. intros k. unfold _build_env.
    destruct (api_key config) as [s|]; [destruct (str_truthy s)|];
      rewrite !lookup_insert; repeat case_decide; done.
Qed.

Lemma pretty_N_go_nonempty (x : N) :
  ∀ s, (0 < x)%N ∨ s ≠ "" → pretty_N_go x s ≠ "".
Proof.
  induction (N.lt_wf_0 x) as [x _ IH]. intros s Hx.
  assert (x = 0 ∨ 0 < x)%N as [->|Hpos] by lia.
  - rewrite pretty_N_go_0. destruct Hx as [Hx|Hs]; [lia|done].
  - rewrite pretty_N_go_step by done. apply IH; [by apply N.div_lt|].
    by right.
Qed.

(** [str(n)] is never the empty text. *)
Lemma str_of_int_nonempty (n : Z) : str_of_int n ≠ "".
Proof.
  unfold str_of_int, pretty, pretty_Z. destruct n as [|p|p]; [done|..].
  - unfold pretty, pretty_positive, pretty, pretty_N.
    rewrite decide_False by done. apply pretty_N_go_nonempty. left. lia.
  - done.
Qed.

(** X18: a child that is this program again reads the configuration back
    from its environment.  Provided the model and the workspace path are not
    empty text and [int()] reads back what [str()] wrote, [_read_env] on the
    child environment gives the model, the token limit and the workspace
    directory of the configuration; the API key it gives is the
    configuration's when that is non-empty, and otherwise the one inherited
    from the parent environment, if any. *)
Theorem child_reads_back_config `{Host} (environ : gmap string string)
    (config : OpencodeConfig) :
  model config ≠ "" →
  str_of_Path (workspace_dir config) ≠ "" →
  py_int (str_of_int (max_tokens config)) = Some (max_tokens config) →
  ∃ d, _read_env (_build_env environ config) = Ok d
       ∧ d !! "model" = Some (VStr (model config))
       ∧ d !! "max_tokens" = Some (VInt (max_tokens config))
       ∧ d !! "workspace_dir" = Some (VStr (str_of_Path (workspace_dir config)))
       ∧ d !! "api_key" =
           match api_key config with
           | Some k =>
               if str_truthy k then Some (VStr k)
               else VStr <$> getenv_truthy environ ENV_API_KEY
           | None => VStr <$> getenv_truthy environ ENV_API_KEY
           end.
Proof.
  intros Hmodel Hdir Hint.
  destruct (build_env_lookups environ config) as (Hm & Ht & Hw & Hk).
  pose proof (str_of_int_nonempty (max_tokens config)) as Htext.
  rewrite read_env_cases.
  rewrite (getenv_truthy_Some _ ENV_MODEL _ Hm Hmodel).
  rewrite (getenv_truthy_Some _ ENV_MAX_TOKENS _ Ht Htext).
  rewrite (getenv_truthy_Some _ ENV_WORKSPACE_DIR _ Hw Hdir).
  rewrite Hint. cbn [from_option]. eexists. split; [reflexivity|].
  repeat split; try by simplify_map_eq.
  rewrite !lookup_insert_ne by done.
  unfold getenv_truthy at 1. rewrite Hk. unfold getenv_truthy.
  destruct (api_key config) as [k|]; [destruct (str_truthy k) eqn:Hk'|];
    rewrite ?Hk'; cbn [from_option];
    try (destruct (environ !! ENV_API_KEY) as [s|]; [destruct (str_truthy s)|]);
    cbn [from_option fmap option_fmap option_map id];
    by rewrite ?lookup_insert_eq, ?lookup_empty.
Qed.

Lemma child_reads_back_config_witness :
  let environ : gmap string string := {[ENV_API_KEY := "sk-parent"]} in
  model OpencodeConfig_default ≠ ""
  ∧ str_of_Path (workspace_dir OpencodeConfig_default) ≠ ""
  ∧ py_int (Host := Demo.host) (str_of_int (max_tokens OpencodeConfig_default))
      = Some (max_tokens OpencodeConfig_default)
  ∧ ∃ d, _read_env (H := Demo.host)
           (_build_env environ OpencodeConfig_default) = Ok d
         ∧ d !! "model" = Some (VStr "gpt-4")
         ∧ d !! "api_key" = Some (VStr "sk-parent").
Proof.
  intros environ.
  assert (model OpencodeConfig_default ≠ "") as Hmodel by discriminate.
  assert (str_of_Path (workspace_dir OpencodeConfig_default) ≠ "") as Hdir
    by discriminate.
  assert (py_int (Host := Demo.host)
            (str_of_int (max_tokens OpencodeConfig_default))
          = Some (max_tokens OpencodeConfig_default)) as Hint by reflexivity.
  split; [exact Hmodel|]. split; [exact Hdir|]. split; [exact Hint|].
  destruct (child_reads_back_config (H := Demo.host) environ
              OpencodeConfig_default Hmodel Hdir Hint)
    as (d & Hd & Hm & _ & _ & Hk).
  exists d. split; [exact Hd|]. split; [exact Hm | exact Hk].
Defined.



(** X21: how the [run] command ends when the child cannot be started.  With
    the configuration loaded, an executable that is not found ends the
    command with status 1 and the line "opencode executable not found in
    PATH"; any other refusal of the operating system is an exception no
    handler catches, and nothing is echoed. *)
Theorem cli_run_spawn_failure `{Host} (fs : filesystem)
    (environ : gmap string string) (args : option (list string))
    (non_interactive : bool) (r : ConfigLoadResult) (oe : oserror) :
  load ConfigManager_default fs environ None = Ok r →
  child ("opencode" :: default [] args) (_build_env environ (config r)) None
    = SpawnFailed oe →
  cli_run fs environ args non_interactive =
    match oe with
    | FileNotFoundError =>
        (["opencode executable not found in PATH"], [], Exit 1)
    | _ => ([], [], Unhandled (OSError oe))
    end.
Proof.
  intros Hload Hchild. unfold cli_run. rewrite Hload.
  unfold run, subprocess_run. cbn [command executable OpencodeRunner_default
    CommandSpec_default]. rewrite Hchild.
  by destruct non_interactive, oe.
Qed.

Lemma cli_run_spawn_failure_witness :
  (∃ r, load (H := Demo.locked_host) ConfigManager_default ∅ ∅ None = Ok r)
  ∧ cli_run (H := Demo.locked_host) ∅ ∅ None false =
      ([], [], Unhandled (OSError PermissionError)).
Proof.
  assert (load (H := Demo.locked_host) ConfigManager_default ∅ ∅ None
          = Ok {| config := OpencodeConfig_default;
                  sources :=
                    [ {| path := Demo.user_file; exists_ := false;
                         loaded := false; data := ∅ |};
                      {| path := Demo.project_file; exists_ := false;
                         loaded := false; data := ∅ |} ] |}) as Hr
    by reflexivity.
  split; [eexists; exact Hr|].
  exact (cli_run_spawn_failure (H := Demo.locked_host) ∅ ∅ None false _
           PermissionError Hr eq_refl).
Defined.

(** X22: the [run] command never lets a [ConfigError] through, and echoes
    nothing before an exception it does not handle: whenever it ends on an
    unhandled exception, that exception is no [ConfigError] and both echoed
    streams are empty. *)
Theorem cli_run_unhandled `{Host} (fs : filesystem)
    (environ : gmap string string) (args : option (list string))
    (non_interactive : bool) (out err : list string) (e : exn) :
  cli_run fs environ args non_interactive = (out, err, Unhandled e) →
  is_ConfigError e = false ∧ out = [] ∧ err = [].
Proof.
  unfold cli_run.
  destruct (load _ _ _ _) as [r|e'].
  - destruct (run _ _ _ _ _ _) as [res|e''].
    + by destruct (returncode res =? 0).
    + destruct e''; intros [= <- <- <-]; done.
  - destruct e'; intros [= <- <- <-]; done.
Qed.

Lemma cli_run_unhandled_witness :
  let fs : filesystem :=
    <[Demo.user_file := File "max_tokens: 0"]> Demo.config_dirs in
  cli_run (H := Demo.host) fs ∅ None false =
    ([], [], Unhandled (ValidationError ["max_tokens"]))
  ∧ is_ConfigError (ValidationError ["max_tokens"]) = false.
Proof.
  intros fs.
  assert (cli_run (H := Demo.host) fs ∅ None false
          = ([], [], Unhandled (ValidationError ["max_tokens"]))) as Hrun
    by reflexivity.
  split; [exact Hrun|].
  exact (proj1 (cli_run_unhandled (H := Demo.host) fs ∅ None false [] []
                  (ValidationError ["max_tokens"]) Hrun)).
Defined.

(** X23: where [resolve_paths] looks.  The user config directory and file do
    not depend on the working directory, and the file lies directly inside
    the directory; with the default manager the project file lies directly
    inside the working directory that is given, or the current one; a
    manager whose [project_file] is an absolute path uses that path whatever
    the working directory. *)
Theorem resolve_paths_locations `{Host} (self : ConfigManager)
    (cwd : option Path) :
  user_config_dir (resolve_paths self cwd) = user_config_dir (resolve_paths self None)
  ∧ user_config_file (resolve_paths self cwd)
      = user_config_file (resolve_paths self None)
  ∧ parent (user_config_file (resolve_paths self cwd))
      = user_config_dir (resolve_paths self cwd)
  ∧ parent (project_config_file (resolve_paths ConfigManager_default cwd))
      = default path_cwd cwd
  ∧ (∀ s, project_file self = String "/" s →
          project_config_file (resolve_paths self cwd)
            = Path_of_str (project_file self)).
Proof.
  split; [done|]. split; [done|]. split; [apply user_config_file_parent|]. split.
  - unfold resolve_paths. cbn [project_config_file ConfigManager_default project_file].
    destruct (default path_cwd cwd) as [r l] eqn:Hcwd.
    assert (match cwd with Some c => c | None => path_cwd end = mkPath r l) as ->
      by (by destruct cwd).
    change (joinpath (mkPath r l) ".opencode.yaml")
      with (mkPath r (l ++ [".opencode.yaml"])).
    apply parent_snoc.
  - intros s Hs. unfold resolve_paths. cbn [project_config_file]. rewrite Hs.
    unfold joinpath. pose proof (Path_of_str_absolute s) as Hroot.
    by destruct (root (Path_of_str (String "/" s))).
Qed.

Lemma resolve_paths_locations_witness :
  let manager := {| app_name := "opencode-wrapper";
                    project_file := "/etc/opencode.yaml" |} in
  project_file manager = String "/" "etc/opencode.yaml"
  ∧ project_config_file
      (resolve_paths (H := Demo.host) manager (Some (Path_of_str "/work/sub")))
    = Path_of_str "/etc/opencode.yaml".
Proof.
  intros manager.
  assert (project_file manager = String "/" "etc/opencode.yaml") as Hs
    by reflexivity.
  split; [exact Hs|].
  exact (proj2 (proj2 (proj2 (proj2
    (resolve_paths_locations (H := Demo.host) manager
       (Some (Path_of_str "/work/sub")))))) "etc/opencode.yaml" Hs).
Defined.

(** * Further properties of the merge and of the failures of [load] and [run] *)

(** X24: a value that a higher source overrides is never looked at.  When
    the environment mapping has a key, whatever the two files hold for it
    does not change the merged mapping; likewise for the user file's value of
    a key the project file has.  So an invalid value in a file is harmless
    once it is overridden: validation only sees the merge. *)
Theorem shadowed_values_are_ignored `{Host} (u p e : dict) (k : string)
    (v : value) :
  (is_Some (e !! k) →
   merged (<[k := v]> u) p e = merged u p e
   ∧ merged u (<[k := v]> p) e = merged u p e
   ∧ model_validate (merged (<[k := v]> u) (<[k := v]> p) e)
       = model_validate (merged u p e))
  ∧ (is_Some (p !! k) → merged (<[k := v]> u) p e = merged u p e).
Proof.
  assert (∀ u' p', (∀ j, j ≠ k → u' !! j = u !! j) →
                   (∀ j, j ≠ k → p' !! j = p !! j) →
                   (is_Some (e !! k) ∨ (is_Some (p !! k) ∧ p' = p)) →
                   merged u' p' e = merged u p e) as Hsame.
  { intros u' p' Hu Hp Hk. apply map_eq. intros j. rewrite !merged_lookup.
    destruct (decide (j = k)) as [->|Hj].
    - destruct Hk as [[x ->]|[[x Hx] ->]]; [done|]. by rewrite Hx.
    - by rewrite Hu, Hp. }
  split.
  - intros He. split; [|split].
    + apply Hsame; [|done|by left]. intros j Hj. by rewrite lookup_insert_ne.
    + apply Hsame; [done| |by left]. intros j Hj. by rewrite lookup_insert_ne.
    + f_equal. apply Hsame; [..|by left]; intros j Hj; by rewrite lookup_insert_ne.
  - intros Hp. apply Hsame; [|done|by right]. intros j Hj.
    by rewrite lookup_insert_ne.
Qed.

Lemma shadowed_values_are_ignored_witness :
  let e : dict := {["max_tokens" := VInt 32000]} in
  is_Some (e !! "max_tokens")
  ∧ model_validate (H := Demo.host)
      (merged (<["max_tokens" := VInt 0]> ∅) (<["max_tokens" := VInt 0]> ∅) e)
    = model_validate (H := Demo.host) (merged ∅ ∅ e)
  ∧ max_tokens <$> model_validate (H := Demo.host) (merged ∅ ∅ e) = Ok 32000.
Proof.
  intros e.
  assert (is_Some (e !! "max_tokens")) as He by (eexists; reflexivity).
  split; [exact He|]. split; [|reflexivity].
  exact (proj2 (proj2 (proj1
    (shadowed_values_are_ignored (H := Demo.host) ∅ ∅ e "max_tokens" (VInt 0))
    He))).
Defined.

(** X26: what [run] can raise.  A failure of [run] is one of four: the
    [RuntimeError] "opencode executable not found in PATH", when starting
    the child failed with [FileNotFoundError]; the operating system's error,
    when starting the child failed with any other; the [ValueError] with
    which a command or an environment is rejected before the child is
    started; [UnicodeDecodeError], in captured mode only, after a child that
    ran to completion.  A [FileNotFoundError] never leaves [run], and neither
    does a [ConfigError]. *)
Theorem run_failures `{Host} (self : OpencodeRunner)
    (environ : gmap string string) (config : OpencodeConfig)
    (args : list string) (interactive : bool) (working_dir : option Path)
    (e : exn) :
  run self environ config args interactive working_dir = Raise e →
  (e = RuntimeError "opencode executable not found in PATH"
   ∧ child (executable (command self) :: args)
       (_build_env environ config) working_dir = SpawnFailed FileNotFoundError)
  ∨ (∃ oe, e = OSError oe ∧ oe ≠ FileNotFoundError
           ∧ child (executable (command self) :: args)
               (_build_env environ config) working_dir = SpawnFailed oe)
  ∨ (e = ValueError
     ∧ child (executable (command self) :: args)
         (_build_env environ config) working_dir = SpawnRejected)
  ∨ (e = UnicodeDecodeError ∧ interactive = false
     ∧ ∃ behaviour,
         child (executable (command self) :: args)
           (_build_env environ config) working_dir = Started behaviour
         ∧ (locale_decode (behaviour true).1.2 = None
            ∨ locale_decode (behaviour true).2 = None)).
Proof.
  pose proof (run_by_outcome self environ config args interactive working_dir)
    as Hrun.
  destruct (child _ _ _) as [oe| |behaviour] eqn:Hchild.
  - destruct oe; rewrite Hrun; intros [= <-];
      try (by left); right; left; eexists; by repeat split.
  - rewrite Hrun. intros [= <-]. right. right. by left.
  - rewrite Hrun. destruct interactive; simpl.
    { by destruct (behaviour false) as [[status out] err]. }
    intros Hraise. right. right. right.
    assert (e = UnicodeDecodeError
            ∧ (locale_decode (behaviour true).1.2 = None
               ∨ locale_decode (behaviour true).2 = None)) as [-> Hbytes].
    { destruct (behaviour true) as [[status out] err]. simpl.
      destruct (locale_decode out), (locale_decode err); try done;
        injection Hraise as <-; auto. }
    split; [done|]. split; [done|]. by exists behaviour.
Qed.

Lemma run_failures_witness :
  run (H := Demo.locked_host) OpencodeRunner_default ∅ OpencodeConfig_default
    [] true None = Raise (OSError PermissionError)
  ∧ child (Host := Demo.locked_host) ["opencode"]
      (_build_env ∅ OpencodeConfig_default) None = SpawnFailed PermissionError.
Proof.
  assert (run (H := Demo.locked_host) OpencodeRunner_default ∅
            OpencodeConfig_default [] true None
          = Raise (OSError PermissionError)) as Hrun by reflexivity.
  split; [exact Hrun|].
  destruct (run_failures (H := Demo.locked_host) OpencodeRunner_default ∅
              OpencodeConfig_default [] true None _ Hrun)
    as [[Hnot _]|[(oe & Heq & _ & Hchild)|[[Hnot _]|[Hnot _]]]];
    try discriminate.
  injection Heq as <-. exact Hchild.
Defined.

(** X27: a config file that is there but cannot be read as text is no
    [ConfigError].  For a file whose bytes do not decode [_read_yaml] raises
    [UnicodeDecodeError], for a file without access [PermissionError], for a
    directory [IsADirectoryError]: only a YAML error is turned into a
    [ConfigError].  With the user config file in that state [load] raises
    the same exception. *)
Theorem unreadable_file_error_escapes `{Host} (self : ConfigManager)
    (fs : filesystem) (environ : gmap string string) (cwd : option Path)
    (path : Path) (n : node) :
  fs_node fs path = Some n →
  (∀ text, n ≠ File text) →
  let e := match n with
           | Undecodable => UnicodeDecodeError
           | Unreadable => OSError PermissionError
           | _ => OSError IsADirectoryError
           end in
  _read_yaml fs path = Raise e
  ∧ is_ConfigError e = false
  ∧ (path = user_config_file (resolve_paths self cwd) →
     load self fs environ cwd = Raise e).
Proof.
  intros Hnode Hnot e.
  assert (_read_yaml fs path = Raise e) as Hread.
  { unfold _read_yaml, path_exists, read_text. rewrite Hnode. simpl.
    destruct n; try done. by destruct (Hnot text). }
  split; [done|]. split; [by destruct n|].
  intros ->. by apply load_raises_user.
Qed.

Lemma unreadable_file_error_escapes_witness :
  let fs : filesystem := <[Demo.user_file := Undecodable]> Demo.config_dirs in
  fs_node fs Demo.user_file = Some Undecodable
  ∧ (∀ text, Undecodable ≠ File text)
  ∧ load (H := Demo.host) ConfigManager_default fs ∅ None
    = Raise UnicodeDecodeError.
Proof.
  intros fs.
  assert (fs_node fs Demo.user_file = Some Undecodable) as Hnode by reflexivity.
  assert (∀ text, Undecodable ≠ File text) as Hnot by discriminate.
  split; [exact Hnode|]. split; [exact Hnot|].
  exact (proj2 (proj2
    (unreadable_file_error_escapes (H := Demo.host) ConfigManager_default fs ∅
       None Demo.user_file Undecodable Hnode Hnot)) eq_refl).
Defined.
